(** * Chat-session lifecycle of MultiBot

    A shallow embedding of the conversation code of the repository:
    - [App]: the Streamlit script [src/app.py] (functions
      [chat_response_streaming] and the "Conversation" branch of [main]);
    - [Cli]: the console script [src/code/app.py] (function
      [start_chat_conversation]).

    Python strings are sequences of Unicode code points, [st.session_state]
    is a record of optional fields (a field is [None] while its key is not
    in the session state), and the hosted chat service is an interface
    ([Provider]) with its own state.  A script run is a computation in a
    small state-and-exception monad that logs what it shows and which
    provider calls it makes. *)

From Stdlib Require Import List String Ascii NArith Bool Lia.
Import ListNotations.
Local Open Scope list_scope.

(** ** Python strings *)

Module Py.

(** A [str] is a list of code points. *)
Definition char := N.
Definition str := list char.

(** An ASCII literal. *)
Definition lit (s : string) : str :=
  List.map N_of_ascii (list_ascii_of_string s).

(** [str.isspace] on one code point (the Unicode white-space set used by
    [str.strip()] without argument). *)
Definition isspace (c : char) : bool :=
  ((9 <=? c) && (c <=? 13) || (28 <=? c) && (c <=? 32)
   || (c =? 133) || (c =? 160) || (c =? 5760)
   || (8192 <=? c) && (c <=? 8202)
   || (c =? 8232) || (c =? 8233) || (c =? 8239) || (c =? 8287)
   || (c =? 12288))%N.

Fixpoint lstrip (s : str) : str :=
  match s with
  | [] => []
  | c :: s' => if isspace c then lstrip s' else s
  end.

Definition rstrip (s : str) : str := rev (lstrip (rev s)).

(** [s.strip()] *)
Definition strip (s : str) : str := rstrip (lstrip s).

(** Truth value of a string in a condition: non-empty. *)
Definition truthy (s : str) : bool :=
  match s with [] => false | _ :: _ => true end.

(** [str.lower] on the ASCII letters.  Outside ASCII the code point is
    kept: no non-ASCII code point lowers to a string made of the letters
    of "exit" or "quit", so membership in ['exit', 'quit'] is decided
    as in Python. *)
Definition lower_char (c : char) : char :=
  if ((65 <=? c) && (c <=? 90))%N then (c + 32)%N else c.

Definition lower (s : str) : str := List.map lower_char s.

Definition str_eqb (a b : str) : bool :=
  if list_eq_dec N.eq_dec a b then true else false.

(** [x in l] for a list of strings. *)
Definition str_in (x : str) (l : list str) : bool :=
  existsb (str_eqb x) l.

End Py.

Import Py.

(** ** The hosted chat service *)

(** What a provider call does: it returns a value or raises an exception,
    kept by its message [str(e)]. *)
Inductive outcome (A : Type) : Type :=
| Returned (a : A)
| Raised (msg : str).
Arguments Returned {A} a.
Arguments Raised {A} msg.

(** [client.chats.create(model=...)] and [chat.send_message(message=...)].
    [Handle] is the chat object, [PState] whatever the service remembers
    (the server-side conversation included).  What [send_message] returns
    is the [text] of the response, a string. *)
Class Provider (Handle PState : Type) : Type := {
  chats_create : str -> PState -> outcome Handle * PState;
  send_message : Handle -> str -> PState -> outcome str * PState
}.

(** A provider call as it appears in the log of a run. *)
Inductive call (Handle : Type) : Type :=
| CallCreate (model : str)
| CallSend (chat : Handle) (message : str).
Arguments CallCreate {Handle} model.
Arguments CallSend {Handle} chat message.

Definition is_send {Handle : Type} (c : call Handle) : bool :=
  match c with CallSend _ _ => true | CallCreate _ => false end.

(** ** Results of a script *)

(** A computation ends with a value, with a Python [Exception] (kept by
    its message), or with one of Streamlit's script-control exceptions
    raised by [st.stop()] and [st.rerun()]; these two do not derive from
    [Exception], so [except Exception] does not catch them. *)
Inductive result (A : Type) : Type :=
| Ok (a : A)
| Exc (msg : str)
| StopScript
| RerunScript.
Arguments Ok {A} a.
Arguments Exc {A} msg.
Arguments StopScript {A}.
Arguments RerunScript {A}.

Definition model_name : str := lit "gemini-2.5-flash".

(** Code points of the symbols the scripts print. *)
Definition robot : char := 129302%N.        (* U+1F916 *)
Definition cursor : char := 9611%N.         (* U+258B *)
Definition cross_mark : char := 10060%N.    (* U+274C *)
Definition check_mark : char := 9989%N.     (* U+2705 *)
Definition warning_sign : str := [9888%N; 65039%N].  (* U+26A0 U+FE0F *)
Definition speech_balloon : char := 128172%N.        (* U+1F4AC *)
Definition arrows : char := 128260%N.       (* U+1F504 *)

(** ** The Streamlit application, [src/app.py] *)

Module App.

(** [st.session_state], restricted to the three keys the script uses.
    A field is [None] while its key is absent; [chat_session] holds
    Python's [None] as [Some None]. *)
Record session_state (Handle : Type) : Type := mkSession {
  chat_history : option (list (str * str));
  chat_session : option (option Handle);
  chat_message_input : option str
}.
Arguments mkSession {Handle} _ _ _.
Arguments chat_history {Handle} _.
Arguments chat_session {Handle} _.
Arguments chat_message_input {Handle} _.

(** What a run shows, in order. *)
Inductive ui : Type :=
| St_header (s : str)
| St_markdown (s : str)
| St_success (s : str)
| St_error (s : str)
| St_warning (s : str)
| Placeholder_markdown (s : str)
| Placeholder_error (s : str)
| Time_sleep.

(** Everything a run reads and changes. *)
Record world (Handle PState : Type) : Type := mkWorld {
  provider : PState;
  calls : list (call Handle);
  ui_log : list ui;
  session : session_state Handle
}.
Arguments mkWorld {Handle PState} _ _ _ _.
Arguments provider {Handle PState} _.
Arguments calls {Handle PState} _.
Arguments ui_log {Handle PState} _.
Arguments session {Handle PState} _.

(** What the widgets return in one run: the text of the input box and
    whether each button was the one clicked. *)
Record widgets : Type := mkWidgets {
  user_message : str;
  send_clicked : bool;
  clear_clicked : bool
}.

Section Script.

Context {Handle PState : Type} {P : Provider Handle PState}.

Definition M (A : Type) : Type :=
  world Handle PState -> result A * world Handle PState.

Definition ret {A : Type} (a : A) : M A := fun w => (Ok a, w).

Definition bind {A B : Type} (m : M A) (k : A -> M B) : M B :=
  fun w =>
    match m w with
    | (Ok a, w') => k a w'
    | (Exc e, w') => (Exc e, w')
    | (StopScript, w') => (StopScript, w')
    | (RerunScript, w') => (RerunScript, w')
    end.

Definition raise {A : Type} (msg : str) : M A := fun w => (Exc msg, w).

(** [try: body except Exception as e: handler(str(e))] *)
Definition try_except {A : Type} (body : M A) (handler : str -> M A) : M A :=
  fun w =>
    match body w with
    | (Exc e, w') => handler e w'
    | r => r
    end.

Definition st_stop {A : Type} : M A := fun w => (StopScript, w).
Definition st_rerun {A : Type} : M A := fun w => (RerunScript, w).

Definition show (e : ui) : M unit :=
  fun w => (Ok tt, mkWorld (provider w) (calls w) (ui_log w ++ [e]) (session w)).

Definition get_session : M (session_state Handle) :=
  fun w => (Ok (session w), w).

Definition put_session (s : session_state Handle) : M unit :=
  fun w => (Ok tt, mkWorld (provider w) (calls w) (ui_log w) s).

End Script.

Declare Scope script_scope.
Delimit Scope script_scope with script.
Notation "x <- m ;; k" := (bind m (fun x => k))
  (at level 100, m at next level, right associativity) : script_scope.
Notation "m ;; k" := (bind m (fun _ => k))
  (at level 100, right associativity) : script_scope.
Local Open Scope script_scope.

Section Conversation.

Context {Handle PState : Type} {P : Provider Handle PState}.

Local Abbreviation M := (@M Handle PState).

(** *** Reads and writes of [st.session_state] *)

Definition has_chat_history : M bool :=
  s <- get_session ;;
  ret (match chat_history s with Some _ => true | None => false end).

Definition has_chat_message_input : M bool :=
  s <- get_session ;;
  ret (match chat_message_input s with Some _ => true | None => false end).

(** Reading an attribute whose key is absent raises [AttributeError]. *)
Definition read_chat_history : M (list (str * str)) :=
  s <- get_session ;;
  match chat_history s with
  | Some h => ret h
  | None => raise (lit "st.session_state has no attribute chat_history")
  end.

Definition read_chat_session : M (option Handle) :=
  s <- get_session ;;
  match chat_session s with
  | Some c => ret c
  | None => raise (lit "st.session_state has no attribute chat_session")
  end.

Definition read_chat_message_input : M str :=
  s <- get_session ;;
  match chat_message_input s with
  | Some t => ret t
  | None => raise (lit "st.session_state has no attribute chat_message_input")
  end.

Definition write_chat_history (h : list (str * str)) : M unit :=
  s <- get_session ;;
  put_session (mkSession (Some h) (chat_session s) (chat_message_input s)).

Definition write_chat_session (c : option Handle) : M unit :=
  s <- get_session ;;
  put_session (mkSession (chat_history s) (Some c) (chat_message_input s)).

Definition write_chat_message_input (t : str) : M unit :=
  s <- get_session ;;
  put_session (mkSession (chat_history s) (chat_session s) (Some t)).

(** [st.session_state.chat_history.append(p)] *)
Definition append_chat_history (p : str * str) : M unit :=
  h <- read_chat_history ;;
  write_chat_history (h ++ [p]).

(** *** Provider calls, logged *)

Definition call_chats_create (model : str) : M Handle :=
  fun w =>
    let (o, ps) := chats_create model (provider w) in
    let w' := mkWorld ps (calls w ++ [CallCreate model]) (ui_log w) (session w) in
    match o with
    | Returned h => (Ok h, w')
    | Raised e => (Exc e, w')
    end.

(** [chat_session.send_message(message=...)]; on Python's [None] the
    attribute lookup raises before any call is made. *)
Definition call_send_message (chat : option Handle) (message : str) : M str :=
  match chat with
  | None => raise (lit "'NoneType' object has no attribute 'send_message'")
  | Some h =>
      fun w =>
        let (o, ps) := send_message h message (provider w) in
        let w' := mkWorld ps (calls w ++ [CallSend h message]) (ui_log w) (session w) in
        match o with
        | Returned text => (Ok text, w')
        | Raised e => (Exc e, w')
        end
  end.

(** *** [chat_response_streaming] (lines 85-107) *)

Definition bot_prefix : str := lit "**" ++ [robot] ++ lit " Bot:** ".

(** The loop [for char in full_text] of lines 97-100; [displayed] is
    [displayed_text] on entry, the result is [displayed_text] on exit. *)
Fixpoint stream_chars (displayed : str) (rest : str) : M str :=
  match rest with
  | [] => ret displayed
  | c :: rest' =>
      let displayed' := displayed ++ [c] in
      show (Placeholder_markdown (bot_prefix ++ displayed' ++ [cursor])) ;;
      show Time_sleep ;;
      stream_chars displayed' rest'
  end.

Definition chat_response_streaming
    (chat_session : option Handle) (user_message : str) : M str :=
  try_except
    (full_text <- call_send_message chat_session user_message ;;
     _ <- stream_chars [] full_text ;;
     show (Placeholder_markdown (bot_prefix ++ full_text)) ;;
     ret full_text)
    (fun e =>
       let error_msg := lit "Error: " ++ e in
       show (Placeholder_error error_msg) ;;
       ret error_msg).

(** *** The "Conversation" branch of [main] (lines 151-226)

    [main] is given the client (so [setup_client] has succeeded) and
    the mode chosen in the side bar is "Conversation". *)

(** Lines 156-158. *)
Definition init_chat_history : M unit :=
  present <- has_chat_history ;;
  if negb present
  then write_chat_history [] ;; write_chat_session None
  else ret tt.

(** Lines 161-162. *)
Definition init_chat_message_input : M unit :=
  present <- has_chat_message_input ;;
  if negb present then write_chat_message_input [] else ret tt.

(** Lines 165-171. *)
Definition init_chat_session : M unit :=
  current <- read_chat_session ;;
  match current with
  | None =>
      try_except
        (chat <- call_chats_create model_name ;;
         write_chat_session (Some chat) ;;
         show (St_success ([check_mark] ++ lit " New chat session started!")))
        (fun e =>
           show (St_error ([cross_mark] ++ lit " Error creating chat session: " ++ e)) ;;
           st_stop)
  | Some _ => ret tt
  end.

(** The loop of lines 176-179. *)
Fixpoint show_turns (h : list (str * str)) : M unit :=
  match h with
  | [] => ret tt
  | (user_msg, bot_msg) :: h' =>
      show (St_markdown (lit "**You:** " ++ user_msg)) ;;
      show (St_markdown (bot_prefix ++ bot_msg)) ;;
      show (St_markdown (lit "---")) ;;
      show_turns h'
  end.

(** Lines 174-179. *)
Definition display_chat_history : M unit :=
  h <- read_chat_history ;;
  match h with
  | [] => ret tt
  | _ :: _ =>
      show (St_markdown (lit "### " ++ [speech_balloon] ++ lit " Chat History:")) ;;
      show_turns h
  end.

(** Lines 191-219: the "Send Message" button. *)
Definition send_message_clicked (user_message : str) : M unit :=
  if truthy (strip user_message)
  then
    try_except
      (show (St_markdown (lit "**You:** " ++ user_message)) ;;
       chat <- read_chat_session ;;
       response_text <- chat_response_streaming chat user_message ;;
       append_chat_history (user_message, response_text))
      (fun e => show (St_error ([cross_mark] ++ lit " Error: " ++ e))) ;;
    write_chat_message_input [] ;;
    st_rerun
  else
    show (St_warning (warning_sign ++ lit " Please enter a message first!")).

(** Lines 222-226: the "Clear Chat" button. *)
Definition clear_chat_clicked : M unit :=
  write_chat_history [] ;;
  write_chat_session None ;;
  write_chat_message_input [] ;;
  st_rerun.

Definition main (w : widgets) : M unit :=
  show (St_header ([arrows] ++ lit " Interactive Chat")) ;;
  show (St_markdown (lit "Have a continuous conversation with the AI!")) ;;
  init_chat_history ;;
  init_chat_message_input ;;
  init_chat_session ;;
  display_chat_history ;;
  _ <- read_chat_message_input ;;
  (if send_clicked w then send_message_clicked (user_message w) else ret tt) ;;
  (if clear_clicked w then clear_chat_clicked else ret tt).

(** Streamlit runs the script once per user action, and once more,
    with no button clicked, when the run ended in [st.rerun()]. *)
Definition no_click (w : widgets) : widgets :=
  mkWidgets (user_message w) false false.

Definition handle_event (w : widgets) : M unit :=
  fun wd =>
    match main w wd with
    | (RerunScript, wd') => main (no_click w) wd'
    | r => r
    end.

End Conversation.

End App.

(** ** The console application, [src/code/app.py] *)

Module Cli.

(** What the console shows: a [print]ed line or the prompt of [input]. *)
Inductive out : Type :=
| Print (s : str)
| Prompt (s : str).

Record console (Handle PState : Type) : Type := mkConsole {
  provider : PState;
  calls : list (call Handle);
  stdout : list out
}.
Arguments mkConsole {Handle PState} _ _ _.
Arguments provider {Handle PState} _.
Arguments calls {Handle PState} _.
Arguments stdout {Handle PState} _.

Section Conversation.

Context {Handle PState : Type} {P : Provider Handle PState}.

Local Abbreviation console := (console Handle PState).

Definition print (s : str) (c : console) : console :=
  mkConsole (provider c) (calls c) (stdout c ++ [Print s]).

Definition prompt (s : str) (c : console) : console :=
  mkConsole (provider c) (calls c) (stdout c ++ [Prompt s]).

(** Lines 48-51: one exchange, printed whole. *)
Definition send_and_print (chat : Handle) (user_input : str) (c : console)
  : outcome str * console :=
  let (o, ps) := send_message chat user_input (provider c) in
  let c' := mkConsole ps (calls c ++ [CallSend chat user_input]) (stdout c) in
  match o with
  | Returned text => (Returned text, print (lit "Bot: " ++ text) c')
  | Raised e => (Raised e, c')
  end.

(** The loop of lines 39-51, over the lines still to be read from the
    standard input; [input] raises [EOFError] when there is none.  The
    result is what ends the loop ([break], or the exception that leaves
    it) and the lines not read. *)
Fixpoint conversation_loop (chat : Handle) (stdin : list str) (c : console)
  : outcome unit * list str * console :=
  match stdin with
  | [] => (Raised (lit "EOF when reading a line"), [], prompt (lit "You: ") c)
  | user_input :: rest =>
      let c1 := prompt (lit "You: ") c in
      if str_in (lower user_input) [lit "exit"; lit "quit"]
      then (Returned tt, rest, print (lit "Ending chat session.") c1)
      else
        match send_and_print chat user_input c1 with
        | (Returned _, c2) => conversation_loop chat rest c2
        | (Raised e, c2) => (Raised e, rest, c2)
        end
  end.

(** Lines 29-54. *)
Definition start_chat_conversation (stdin : list str) (c : console)
  : list str * console :=
  let c1 := print ([10%N] ++ lit ">>> You've chosen: Start Chat Conversation") c in
  let c2 :=
    print (lit "    (Starting a new chat session. Type 'exit' or 'quit' to return to the menu.)") c1 in
  let on_error (e : str) (c : console) :=
    print (lit "An error occurred during the chat session: " ++ e) c in
  let (o, ps) := chats_create model_name (provider c2) in
  let c3 := mkConsole ps (calls c2 ++ [CallCreate model_name]) (stdout c2) in
  match o with
  | Raised e => (stdin, on_error e c3)
  | Returned chat =>
      match conversation_loop chat stdin c3 with
      | (Returned _, rest, c4) => (rest, c4)
      | (Raised e, rest, c4) => (rest, on_error e c4)
      end
  end.

End Conversation.

End Cli.

(** ** A scripted provider

    A stand-in for the hosted service whose state is the list of outcomes
    still to be played: each call plays the next one.  Chat objects are
    numbers. *)

Module Scripted.

Record script : Type := mkScript {
  creations : list (outcome nat);
  replies : list (outcome str)
}.

Definition create (model : str) (s : script) : outcome nat * script :=
  match creations s with
  | [] => (Raised (lit "no session left in the script"), s)
  | o :: rest => (o, mkScript rest (replies s))
  end.

Definition send (chat : nat) (message : str) (s : script) : outcome str * script :=
  match replies s with
  | [] => (Raised (lit "no reply left in the script"), s)
  | o :: rest => (o, mkScript (creations s) rest)
  end.

#[global] Instance service : Provider nat script :=
  {| chats_create := create; send_message := send |}.

(** Worlds to start from. *)
Definition fresh (s : script) : App.world nat script :=
  App.mkWorld s [] [] (App.mkSession None None None).

Definition active (chat : nat) (h : list (str * str)) (s : script)
  : App.world nat script :=
  App.mkWorld s [] [] (App.mkSession (Some h) (Some (Some chat)) (Some [])).

Definition no_session (s : script) : App.world nat script :=
  App.mkWorld s [] [] (App.mkSession (Some []) (Some None) (Some [])).

End Scripted.

(** ** Content generation and image files *)

(** The [contents] of a [generate_content] request: a prompt, or the list
    of a prompt and an image. *)
Inductive contents (Image : Type) : Type :=
| Text (prompt : str)
| TextAndImage (prompt : str) (image : Image).
Arguments Text {Image} prompt.
Arguments TextAndImage {Image} prompt image.

(** [client.models.generate_content(model=..., contents=...)]; what it
    returns is the [text] of the response. *)
Class Generator (Image PState : Type) : Type := {
  generate_content : str -> contents Image -> PState -> outcome str * PState
}.

(** [Image.open] on an uploaded file. *)
Class Upload (File Image : Type) : Type := {
  open_upload : File -> outcome Image
}.

(** [os.path.exists] and [Image.open] on a path. *)
Class Disk (Image : Type) : Type := {
  path_exists : str -> bool;
  open_path : str -> outcome Image
}.

(** ** A state-and-exception monad over any state *)

Module Run.

Section Monad.

Context {W : Type}.

Definition M (A : Type) : Type := W -> result A * W.

Definition ret {A : Type} (a : A) : M A := fun w => (Ok a, w).

Definition bind {A B : Type} (m : M A) (k : A -> M B) : M B :=
  fun w =>
    match m w with
    | (Ok a, w') => k a w'
    | (Exc e, w') => (Exc e, w')
    | (StopScript, w') => (StopScript, w')
    | (RerunScript, w') => (RerunScript, w')
    end.

Definition raise {A : Type} (msg : str) : M A := fun w => (Exc msg, w).

(** [try: body except Exception as e: handler(str(e))] *)
Definition try_except {A : Type} (body : M A) (handler : str -> M A) : M A :=
  fun w =>
    match body w with
    | (Exc e, w') => handler e w'
    | r => r
    end.

Definition modify (f : W -> W) : M unit := fun w => (Ok tt, f w).

End Monad.

Arguments M W A : clear implicits.

Declare Scope run_scope.
Delimit Scope run_scope with run.
Notation "x <- m ;; k" := (bind m (fun x => k))
  (at level 100, m at next level, right associativity) : run_scope.
Notation "m ;; k" := (bind m (fun _ => k))
  (at level 100, right associativity) : run_scope.

End Run.

(** ** The other pages of the Streamlit application, [src/app.py] *)

Module Pages.

Import Run.
Local Open Scope run_scope.

(** What a page shows: the events of the conversation page, an image, a
    spinner, or markdown with [unsafe_allow_html]. *)
Inductive display (Image : Type) : Type :=
| Ui (e : App.ui)
| St_image (image : Image) (caption : str)
| St_spinner (text : str)
| St_html (body : str).
Arguments Ui {Image} e.
Arguments St_image {Image} image caption.
Arguments St_spinner {Image} text.
Arguments St_html {Image} body.

(** A request as it appears in the log: the model and the contents. *)
Definition request (Image : Type) : Type := (str * contents Image)%type.

Record page (Image PState : Type) : Type := mkPage {
  service : PState;
  requests : list (request Image);
  shown : list (display Image)
}.
Arguments mkPage {Image PState} _ _ _.
Arguments service {Image PState} _.
Arguments requests {Image PState} _.
Arguments shown {Image PState} _.

Definition vision_model : str := lit "gemini-2.0-flash".

Definition framed_picture : str := [128444%N; 65039%N].   (* U+1F5BC U+FE0F *)
Definition magnifier : char := 128269%N.                  (* U+1F50D *)

(** The footer of lines 262-270. *)
Definition footer : str :=
  [10%N] ++ lit "            <div style='text-align: center; color: #666; padding: 20px;'>"
    ++ [10%N] ++ lit "                " ++ [robot]
    ++ lit " MultiBot powered by Google Gemini AI<br>"
    ++ [10%N] ++ lit "            " ++ [169%N] ++ lit " Built by Vaibhav Kottari"
    ++ [10%N] ++ lit "            </div>" ++ [10%N] ++ lit "            ".

Section Requests.

Context {File Image PState : Type}
        {G : Generator Image PState} {U : Upload File Image}.

Local Abbreviation M := (Run.M (page Image PState)).

Definition show (e : display Image) : M unit :=
  modify (fun p => mkPage (service p) (requests p) (shown p ++ [e])).

Definition call_generate_content (model : str) (c : contents Image) : M str :=
  fun p =>
    let (o, s) := generate_content model c (service p) in
    let p' := mkPage s (requests p ++ [(model, c)]) (shown p) in
    match o with
    | Returned text => (Ok text, p')
    | Raised e => (Exc e, p')
    end.

(** [Image.open(uploaded_file)] *)
Definition call_image_open (f : File) : M Image :=
  match open_upload f with
  | Returned image => ret image
  | Raised e => raise e
  end.

(** The loop of lines 58-62. *)
Fixpoint type_out (displayed rest : str) : M str :=
  match rest with
  | [] => ret displayed
  | c :: rest' =>
      let displayed' := displayed ++ [c] in
      show (Ui (App.Placeholder_markdown (displayed' ++ [cursor]))) ;;
      show (Ui App.Time_sleep) ;;
      type_out displayed' rest'
  end.

(** Lines 45-70. *)
Definition get_text_response_streaming (user_input : str) : M str :=
  try_except
    (full_text <- call_generate_content model_name (Text user_input) ;;
     _ <- type_out [] full_text ;;
     show (Ui (App.Placeholder_markdown full_text)) ;;
     ret full_text)
    (fun e =>
       let error_msg := lit "Error: " ++ e in
       show (Ui (App.Placeholder_error error_msg)) ;;
       ret error_msg).

(** Lines 73-82. *)
Definition analyze_image (image : Image) (prompt : str) : M str :=
  try_except
    (call_generate_content vision_model (TextAndImage prompt image))
    (fun e => ret (lit "Error: " ++ e)).

(** The "Text Chat" branch of [main], lines 127-149. *)
Definition text_chat (user_input : str) (generate_clicked : bool) : M unit :=
  show (Ui (App.St_header ([speech_balloon] ++ lit " Get Text Response for a single query"))) ;;
  show (Ui (App.St_markdown (lit "Ask me anything and get an instant response!"))) ;;
  if generate_clicked
  then
    if truthy (strip user_input)
    then
      show (Ui (App.St_success ([check_mark] ++ lit " Generating response..."))) ;;
      show (Ui (App.St_markdown (lit "### " ++ [robot] ++ lit " AI Response:"))) ;;
      _ <- get_text_response_streaming user_input ;;
      ret tt
    else
      show (Ui (App.St_warning (warning_sign ++ lit " Please enter a prompt first!")))
  else ret tt.

(** Lines 249-258: the "Analyze Image" button. *)
Definition analyze_clicked (image : Image) (image_prompt : str) : M unit :=
  if truthy (strip image_prompt)
  then
    show (St_spinner ([magnifier] ++ lit " Analyzing image...")) ;;
    response <- analyze_image image image_prompt ;;
    show (Ui (App.St_success ([check_mark] ++ lit " Analysis complete!"))) ;;
    show (Ui (App.St_markdown (lit "### " ++ [robot] ++ lit " AI Analysis:"))) ;;
    show (Ui (App.St_markdown response))
  else
    show (Ui (App.St_warning
                (warning_sign ++ lit " Please enter a prompt for image analysis!"))).

(** The "Image Analysis" branch of [main], lines 227-270. *)
Definition image_analysis
    (uploaded_file : option File) (image_prompt : str) (analyze : bool) : M unit :=
  show (Ui (App.St_header (framed_picture ++ lit " Image Analysis"))) ;;
  show (Ui (App.St_markdown (lit "Upload an image and ask questions about it!"))) ;;
  match uploaded_file with
  | Some f =>
      image <- call_image_open f ;;
      show (St_image image (lit "Uploaded Image")) ;;
      if analyze then analyze_clicked image image_prompt else ret tt
  | None => ret tt
  end ;;
  show (Ui (App.St_markdown (lit "---"))) ;;
  show (St_html footer).

End Requests.

End Pages.

(** ** The API key, [setup_client] of both scripts *)

Module Setup.

(** What [st.secrets["GOOGLE_API_KEY"]] does: it gives the value, or
    raises [KeyError] (no such key), [FileNotFoundError] (no secrets
    file), or something else. *)
Inductive secret : Type :=
| Secret (value : str)
| KeyError
| FileNotFoundError
| OtherError (msg : str).

(** Where a key can come from: the Streamlit secrets, the variable
    GOOGLE_API_KEY of the process environment, and its value in the
    [.env] file ([None] when there is none). *)
Record environment : Type := mkEnvironment {
  st_secrets : secret;
  os_environ : option str;
  dotenv_file : option str
}.

(** [load_dotenv()] followed by [os.getenv("GOOGLE_API_KEY")]: the [.env]
    file does not override a variable that is already set. *)
Definition getenv_after_load_dotenv (e : environment) : option str :=
  match os_environ e with
  | Some v => Some v
  | None => dotenv_file e
  end.

(** [not api_key] *)
Definition missing (api_key : option str) : bool :=
  match api_key with
  | Some (_ :: _) => false
  | _ => true
  end.

(** A client, as far as the scripts use it: the key it was made with. *)
Record client : Type := mkClient { api_key : str }.

Definition key_of (api_key : option str) : str :=
  match api_key with Some k => k | None => [] end.

(** [setup_client] of [src/app.py], lines 17-31: the result and what is
    shown.  The statements of lines 35-43 are indented under the [return]
    of line 31, their [def] being commented out: they belong to this body
    and are never reached. *)
Definition setup_client (e : environment) : result client * list App.ui :=
  let looked_up : result (option str) :=
    match st_secrets e with
    | Secret v => Ok (Some v)
    | KeyError | FileNotFoundError => Ok (getenv_after_load_dotenv e)
    | OtherError msg => Exc msg
    end in
  match looked_up with
  | Ok api_key =>
      if missing api_key
      then (StopScript,
            [App.St_error
               (warning_sign
                  ++ lit " GOOGLE_API_KEY not found. Please add it to Streamlit secrets or .env file.")])
      else (Ok (mkClient (key_of api_key)), [])
  | Exc msg => (Exc msg, [])
  | StopScript => (StopScript, [])
  | RerunScript => (RerunScript, [])
  end.

(** [setup_client] of [src/code/app.py], lines 10-18: the client, or
    [None], and what is printed. *)
Definition setup_client_console (e : environment) : option client * list Cli.out :=
  let api_key := getenv_after_load_dotenv e in
  if missing api_key
  then (None, [Cli.Print (lit "Error: GOOGLE_API_KEY not found in .env file.")])
  else (Some (mkClient (key_of api_key)),
        [Cli.Print (lit "Gemini client initialized successfully.")]).

End Setup.

(** ** The menu of the console application, [src/code/app.py] *)

Module Menu.

Import Run.
Local Open Scope run_scope.

(** A contact with the service, as it appears in the log. *)
Inductive contact (Handle Image : Type) : Type :=
| Chat (c : call Handle)
| Content (model : str) (c : contents Image).
Arguments Chat {Handle Image} c.
Arguments Content {Handle Image} model c.

Record terminal (Handle Image PState : Type) : Type := mkTerminal {
  service : PState;
  contacts : list (contact Handle Image);
  screen : list Cli.out;
  stdin : list str
}.
Arguments mkTerminal {Handle Image PState} _ _ _ _.
Arguments service {Handle Image PState} _.
Arguments contacts {Handle Image PState} _.
Arguments screen {Handle Image PState} _.
Arguments stdin {Handle Image PState} _.

(** How the menu loop ends: it is left ([break], or [return]), or the
    bound on the number of rounds is reached. *)
Inductive ending : Type :=
| Finished
| OutOfFuel.

Section Console.

Context {Handle Image PState : Type}
        {P : Provider Handle PState} {G : Generator Image PState}
        {D : Disk Image}.

Local Abbreviation terminal := (terminal Handle Image PState).
Local Abbreviation M := (Run.M terminal).

Definition print (s : str) : M unit :=
  modify (fun t => mkTerminal (service t) (contacts t) (screen t ++ [Cli.Print s]) (stdin t)).

(** [input(prompt)]: the prompt is shown and a line is read; at the end of
    the input [EOFError] is raised. *)
Definition input (prompt : str) : M str :=
  fun t =>
    let t' := mkTerminal (service t) (contacts t) (screen t ++ [Cli.Prompt prompt]) (stdin t) in
    match stdin t with
    | [] => (Exc (lit "EOF when reading a line"), t')
    | line :: rest =>
        (Ok line, mkTerminal (service t') (contacts t') (screen t') rest)
    end.

Definition call_generate_content (model : str) (c : contents Image) : M str :=
  fun t =>
    let (o, s) := generate_content model c (service t) in
    let t' := mkTerminal s (contacts t ++ [Content model c]) (screen t) (stdin t) in
    match o with
    | Returned text => (Ok text, t')
    | Raised e => (Exc e, t')
    end.

(** [Image.open(image_path)] *)
Definition call_image_open (image_path : str) : M Image :=
  match open_path image_path with
  | Returned image => ret image
  | Raised e => raise e
  end.

(** Lines 20-26. *)
Definition get_text_response : M unit :=
  print ([10%N] ++ lit ">>> You've chosen: Get Text Response") ;;
  user_input <- input (lit "Enter your prompt: ") ;;
  text <- call_generate_content model_name (Text user_input) ;;
  print (lit "Response: " ++ text).

(** [start_chat_conversation], lines 29-54, on the terminal. *)
Definition start_chat_conversation : M unit :=
  fun t =>
    let (rest, c) :=
      Cli.start_chat_conversation (stdin t)
        (Cli.mkConsole (service t) [] (screen t)) in
    (Ok tt,
     mkTerminal (Cli.provider c) (contacts t ++ map Chat (Cli.calls c))
       (Cli.stdout c) rest).

(** Lines 57-72. *)
Definition generate_image : M unit :=
  print ([10%N] ++ lit ">>> You've chosen: Generate an Image") ;;
  image_path <- input (lit "Enter the path to the image file: ") ;;
  if negb (path_exists image_path)
  then print (lit "Error: Image file '" ++ image_path ++ lit "' not found.")
  else
    user_prompt <- input (lit "Enter your prompt for the image: ") ;;
    image <- call_image_open image_path ;;
    text <- call_generate_content (lit "gemini-2.0-flash") (TextAndImage user_prompt image) ;;
    print text.

(** Lines 75-84. *)
Definition display_menu : M unit :=
  print ([10%N] ++ repeat 61%N 40) ;;
  print (repeat 61%N 40) ;;
  print (lit "Please select an option:") ;;
  print (lit "  1. Get a simple Text Response") ;;
  print (lit "  2. Start an interactive Chat Conversation") ;;
  print (lit "  3. Generate an Image") ;;
  print (lit "  4. Exit") ;;
  print (repeat 45%N 40).

(** The [if]/[elif] chain of lines 98-108; the result tells whether the
    loop goes on ([false] after [break]). *)
Definition dispatch (choice : str) : M bool :=
  if str_eqb choice (lit "1") then get_text_response ;; ret true
  else if str_eqb choice (lit "2") then start_chat_conversation ;; ret true
  else if str_eqb choice (lit "3") then generate_image ;; ret true
  else if str_eqb choice (lit "4")
  then print (lit "Exiting the application. Goodbye!") ;; ret false
  else
    print ([10%N] ++ lit "[Error] Invalid choice. Please enter a number between 1 and 4.") ;;
    ret true.

(** The loop of lines 94-110, for at most [fuel] rounds. *)
Fixpoint menu_loop (fuel : nat) : M ending :=
  match fuel with
  | O => ret OutOfFuel
  | S fuel' =>
      display_menu ;;
      choice <- input (lit "Enter your choice (1-4): ") ;;
      go_on <- dispatch choice ;;
      if go_on
      then
        _ <- input ([10%N] ++ lit "Press Enter to return to the menu...") ;;
        menu_loop fuel'
      else ret Finished
  end.

(** [main], lines 87-110.  Every round reads a line, so one round more
    than there are lines is enough. *)
Definition main (e : Setup.environment) : M ending :=
  fun t =>
    let (client, printed) := Setup.setup_client_console e in
    let t' := mkTerminal (service t) (contacts t) (screen t ++ printed) (stdin t) in
    match client with
    | None => (Ok Finished, t')
    | Some _ => menu_loop (S (List.length (stdin t'))) t'
    end.

End Console.

End Menu.

(** ** Scripted stand-ins for content generation and image files *)

Module Fixtures.

(** Requests for content play the replies of the script, as exchanges
    do. *)
#[global] Instance generator : Generator nat Scripted.script :=
  {| generate_content := fun _ _ s => Scripted.send 0 [] s |}.

Definition cat_png : str := lit "cat.png".

(** One file is an image, number 1; nothing else can be opened. *)
Definition open_file (name : str) : outcome nat :=
  if str_eqb name cat_png
  then Returned 1
  else Raised (lit "cannot identify image file").

#[global] Instance upload : Upload str nat := {| open_upload := open_file |}.

#[global] Instance disk : Disk nat :=
  {| path_exists := fun name => str_eqb name cat_png; open_path := open_file |}.

Definition blank_page (s : Scripted.script) : Pages.page nat Scripted.script :=
  Pages.mkPage s [] [].

Definition terminal (s : Scripted.script) (lines : list str)
  : Menu.terminal nat nat Scripted.script :=
  Menu.mkTerminal s [] [] lines.

Definition with_key : Setup.environment :=
  Setup.mkEnvironment Setup.KeyError (Some (lit "secret-key")) None.

Definition without_key : Setup.environment :=
  Setup.mkEnvironment Setup.KeyError None None.

End Fixtures.

(** * Definitions for the properties *)

Import App.
Local Open Scope script_scope.

(** ** What the loops show *)

(** The events of the loop of lines 176-179. *)
Fixpoint turns_ui (h : list (str * str)) : list ui :=
  match h with
  | [] => []
  | (user_msg, bot_msg) :: h' =>
      St_markdown (lit "**You:** " ++ user_msg)
        :: St_markdown (bot_prefix ++ bot_msg)
        :: St_markdown (lit "---")
        :: turns_ui h'
  end.

(** The events of the loop of lines 97-100. *)
Fixpoint stream_ui (displayed rest : str) : list ui :=
  match rest with
  | [] => []
  | c :: rest' =>
      Placeholder_markdown (bot_prefix ++ (displayed ++ [c]) ++ [cursor])
        :: Time_sleep
        :: stream_ui (displayed ++ [c]) rest'
  end.

(** The events of lines 174-179. *)
Definition history_ui (h : list (str * str)) : list ui :=
  match h with
  | [] => []
  | _ :: _ =>
      St_markdown (lit "### " ++ [speech_balloon] ++ lit " Chat History:")
        :: turns_ui h
  end.

(** The events of lines 152-153. *)
Definition heading_ui : list ui :=
  [St_header ([arrows] ++ lit " Interactive Chat");
   St_markdown (lit "Have a continuous conversation with the AI!")].

(** The session state after lines 156-162. *)
Definition initialised {Handle : Type} (s : session_state Handle)
  : session_state Handle :=
  let input := match chat_message_input s with Some t => t | None => [] end in
  match chat_history s with
  | None => mkSession (Some []) (Some None) (Some input)
  | Some h => mkSession (Some h) (chat_session s) (Some input)
  end.

(** The text a turn records for what the provider did. *)
Definition reply_text (o : outcome str) : str :=
  match o with
  | Returned text => text
  | Raised e => lit "Error: " ++ e
  end.

(** What the placeholder shows for an outcome of the provider. *)
Definition reply_ui (o : outcome str) : list ui :=
  match o with
  | Returned text => stream_ui [] text ++ [Placeholder_markdown (bot_prefix ++ text)]
  | Raised e => [Placeholder_error (lit "Error: " ++ e)]
  end.

(** The two buttons, lines 191-226. *)
Definition buttons {Handle PState : Type} {P : Provider Handle PState}
    (w : widgets) : M (Handle := Handle) (PState := PState) unit :=
  (if send_clicked w then send_message_clicked (user_message w) else ret tt) ;;
  (if clear_clicked w then clear_chat_clicked else ret tt).

Ltac step :=
  unfold bind at 1;
  cbn [show ret raise get_session put_session st_rerun st_stop
       provider calls ui_log session
       chat_history chat_session chat_message_input fst snd].

(** The session state before the buttons when the run has just created
    the chat object. *)
Definition started {Handle : Type} (s : session_state Handle) (chat : Handle)
  : session_state Handle :=
  mkSession (chat_history (initialised s)) (Some (Some chat))
    (chat_message_input (initialised s)).

(** The history a run displays. *)
Definition shown_history {Handle : Type} (s : session_state Handle)
  : list (str * str) :=
  match chat_history (initialised s) with Some h => h | None => [] end.

(** The session state the script starts from and "Clear Chat" restores:
    empty history, no chat object, empty input (lines 157, 158, 162). *)
Definition cleared {Handle : Type} : session_state Handle :=
  mkSession (Some []) (Some None) (Some []).

(** The run gets as far as the buttons: a chat object is stored, or none
    is and the provider creates one. *)
Definition reaches_buttons {Handle PState : Type} {P : Provider Handle PState}
    (wd : world Handle PState) : Prop :=
  match chat_session (initialised (session wd)) with
  | Some (Some _) => True
  | Some None =>
      exists chat ps, chats_create model_name (provider wd) = (Returned chat, ps)
  | None => False
  end.

Definition send_widgets (text : str) : widgets := mkWidgets text true false.

Definition clear_widgets : widgets := mkWidgets [] false true.

(** A sequence of user actions, each handled to its end. *)
Fixpoint run_events {Handle PState : Type} {P : Provider Handle PState}
    (ws : list widgets) (wd : world Handle PState) : world Handle PState :=
  match ws with
  | [] => wd
  | w :: ws' => run_events ws' (snd (handle_event w wd))
  end.

(** What the provider does with a sequence of messages sent on one chat
    object, one after the other. *)
Fixpoint exchanges {Handle PState : Type} {P : Provider Handle PState}
    (chat : Handle) (msgs : list str) (ps : PState) : list (outcome str) :=
  match msgs with
  | [] => []
  | m :: msgs' =>
      fst (send_message chat m ps)
        :: exchanges chat msgs' (snd (send_message chat m ps))
  end.

(** The test of line 43 of the console script. *)
Definition leaves (user_input : str) : bool :=
  str_in (lower user_input) [lit "exit"; lit "quit"].

Fixpoint starts_with (prefix s : str) : bool :=
  match prefix, s with
  | [], _ => true
  | _ :: _, [] => false
  | a :: prefix', b :: s' => (a =? b)%N && starts_with prefix' s'
  end.

(** What the handler of lines 212-213 shows starts with this. *)
Definition turn_error_prefix : str := [cross_mark] ++ lit " Error: ".

(** An event that is not the error report of lines 212-213. *)
Definition quiet (ev : ui) : bool :=
  match ev with
  | St_error s => negb (starts_with turn_error_prefix s)
  | _ => true
  end.

(** ** Concrete runs *)

(** "ping" on a session whose exchange fails. *)
Definition ping_fails : world nat Scripted.script :=
  Scripted.active 0 [] (Scripted.mkScript [] [Raised (lit "network failure")]).

(** "ping" fails and "pong" is answered, in the Streamlit script and on
    the console. *)
Definition ping_fails_pong_replies : Scripted.script :=
  Scripted.mkScript [Returned 7]
    [Raised (lit "network failure"); Returned (lit "pong to you")].

Definition console_start : Cli.console nat Scripted.script :=
  Cli.mkConsole ping_fails_pong_replies [] [].

Definition spaces : str := lit "   ".

Definition one_session_one_reply : Scripted.script :=
  Scripted.mkScript [Returned 3] [Returned (lit "Hi there")].

Definition refused : Scripted.script :=
  Scripted.mkScript [Raised (lit "API key not valid")] [Returned (lit "Hi there")].

Definition two_turns : list (str * str) :=
  [(lit "Hello", lit "Hi there"); (lit "How are you?", lit "Fine.")].

(** Two turns on a session, both answered. *)
Definition two_replies : Scripted.script :=
  Scripted.mkScript [] [Returned (lit "Hi there"); Returned (lit "Fine.")].

Definition says_error : Scripted.script :=
  Scripted.mkScript [] [Returned (lit "Error: network failure")].

(** ** Definitions for the further properties *)

Definition padded_hello : str := lit "  Hello ".

(** The state of the provider after a sequence of messages sent on one
    chat object. *)
Fixpoint provider_after {Handle PState : Type} {P : Provider Handle PState}
    (chat : Handle) (msgs : list str) (ps : PState) : PState :=
  match msgs with
  | [] => ps
  | m :: msgs' => provider_after chat msgs' (snd (send_message chat m ps))
  end.

(** What the console shows for answered lines: the prompt, then the reply. *)
Fixpoint dialogue (turns : list (str * str)) : list Cli.out :=
  match turns with
  | [] => []
  | (_, reply) :: turns' =>
      Cli.Prompt (lit "You: ") :: Cli.Print (lit "Bot: " ++ reply) :: dialogue turns'
  end.

(** Lines 31-32 of the console script. *)
Definition banner : list Cli.out :=
  [Cli.Print ([10%N] ++ lit ">>> You've chosen: Start Chat Conversation");
   Cli.Print (lit "    (Starting a new chat session. Type 'exit' or 'quit' to return to the menu.)")].

Definition two_replies_console : Cli.console nat Scripted.script :=
  Cli.mkConsole
    (Scripted.mkScript [Returned 3] [Returned (lit "Hi there"); Returned (lit "Fine.")])
    [] [].

(** The events of the loop of lines 58-62. *)
Fixpoint typing {Image : Type} (displayed rest : str) : list (Pages.display Image) :=
  match rest with
  | [] => []
  | c :: rest' =>
      Pages.Ui (Placeholder_markdown ((displayed ++ [c]) ++ [cursor]))
        :: Pages.Ui Time_sleep
        :: typing (displayed ++ [c]) rest'
  end.

(** What [get_text_response_streaming] shows for an outcome of the
    request. *)
Definition typed_reply {Image : Type} (o : outcome str) : list (Pages.display Image) :=
  match o with
  | Returned text => typing [] text ++ [Pages.Ui (Placeholder_markdown text)]
  | Raised e => [Pages.Ui (Placeholder_error (lit "Error: " ++ e))]
  end.

(** The text has a character that is not white space. *)
Definition visible (s : str) : bool := existsb (fun c => negb (isspace c)) s.

Ltac run_step :=
  unfold Run.bind at 1;
  cbn [Pages.show Run.modify Run.ret Run.raise
       Pages.service Pages.requests Pages.shown fst snd].

(** What the "Analyze Image" button shows. *)
Definition analysis_shown {Image : Type} (image_prompt : str) (o : outcome str)
  : list (Pages.display Image) :=
  if truthy (strip image_prompt)
  then [Pages.St_spinner ([Pages.magnifier] ++ lit " Analyzing image...");
        Pages.Ui (St_success ([check_mark] ++ lit " Analysis complete!"));
        Pages.Ui (St_markdown (lit "### " ++ [robot] ++ lit " AI Analysis:"));
        Pages.Ui (St_markdown (reply_text o))]
  else [Pages.Ui (St_warning
                    (warning_sign ++ lit " Please enter a prompt for image analysis!"))].

(** Lines 228-229 and 261-270. *)
Definition image_heading {Image : Type} : list (Pages.display Image) :=
  [Pages.Ui (St_header (Pages.framed_picture ++ lit " Image Analysis"));
   Pages.Ui (St_markdown (lit "Upload an image and ask questions about it!"))].

Definition image_footer {Image : Type} : list (Pages.display Image) :=
  [Pages.Ui (St_markdown (lit "---")); Pages.St_html Pages.footer].

Definition empty_secret : Setup.environment :=
  Setup.mkEnvironment (Setup.Secret []) (Some (lit "secret-key")) None.

(** A computation that reads its input from the front: the lines left
    after it are a suffix of the lines before. *)
Definition reads_forward {Handle Image PState A : Type}
    (m : Run.M (Menu.terminal Handle Image PState) A) : Prop :=
  forall t, exists consumed, Menu.stdin t = consumed ++ Menu.stdin (snd (m t)).

Definition goodbye : Cli.out := Cli.Print (lit "Exiting the application. Goodbye!").

(** One round of the menu loop, lines 95-110, followed by [next]. *)
Definition round {Handle Image PState : Type}
    {P : Provider Handle PState} {G : Generator Image PState} {D : Disk Image}
    (next : Run.M (Menu.terminal Handle Image PState) Menu.ending)
  : Run.M (Menu.terminal Handle Image PState) Menu.ending :=
  Run.bind Menu.display_menu (fun _ =>
  Run.bind (Menu.input (lit "Enter your choice (1-4): ")) (fun choice =>
  Run.bind (Menu.dispatch choice) (fun go_on =>
  if go_on
  then Run.bind (Menu.input ([10%N] ++ lit "Press Enter to return to the menu..."))
         (fun _ => next)
  else Run.ret Menu.Finished))).

Definition choose_exit : Menu.terminal nat nat Scripted.script :=
  Fixtures.terminal one_session_one_reply [lit "9"; lit ""; lit "4"; lit "unread"].

(** What [display_menu] prints. *)
Definition menu_lines : list Cli.out :=
  [Cli.Print ([10%N] ++ repeat 61%N 40);
   Cli.Print (repeat 61%N 40);
   Cli.Print (lit "Please select an option:");
   Cli.Print (lit "  1. Get a simple Text Response");
   Cli.Print (lit "  2. Start an interactive Chat Conversation");
   Cli.Print (lit "  3. Generate an Image");
   Cli.Print (lit "  4. Exit");
   Cli.Print (repeat 45%N 40)].

Ltac menu_step :=
  unfold Run.bind at 1;
  cbn [Menu.print Run.modify Run.ret Run.raise
       Menu.service Menu.contacts Menu.screen Menu.stdin fst snd].

Definition ask_and_fail : Menu.terminal nat nat Scripted.script :=
  Fixtures.terminal (Scripted.mkScript [] [Raised (lit "quota exceeded")])
    [lit "1"; lit "Hello"; lit ""; lit "4"].

Definition ask_about_missing_file : Menu.terminal nat nat Scripted.script :=
  Fixtures.terminal one_session_one_reply [lit "dog.png"; lit ""; lit "4"].

Definition ask_about_cat : Menu.terminal nat nat Scripted.script :=
  Fixtures.terminal one_session_one_reply [Fixtures.cat_png; lit "What is this?"; lit ""].

(** * Properties *)

Section Runs.

Context {Handle PState : Type} {P : Provider Handle PState}.

Implicit Types (wd : world Handle PState) (w : widgets).

Lemma show_turns_run h wd :
  show_turns h wd
  = (Ok tt, mkWorld (provider wd) (calls wd) (ui_log wd ++ turns_ui h) (session wd)).
Proof.
  revert wd; induction h as [|[u b] h IH]; intros [ps cs log s]; cbn [show_turns turns_ui].
  - unfold ret; cbn. now rewrite app_nil_r.
  - unfold bind at 1, show at 1; cbn [provider calls ui_log session].
    unfold bind at 1, show at 1; cbn [provider calls ui_log session].
    unfold bind at 1, show at 1; cbn [provider calls ui_log session].
    rewrite IH; cbn [provider calls ui_log session].
    now rewrite <- !app_assoc.
Qed.

Lemma stream_chars_run rest : forall displayed wd,
  stream_chars displayed rest wd
  = (Ok (displayed ++ rest),
     mkWorld (provider wd) (calls wd) (ui_log wd ++ stream_ui displayed rest) (session wd)).
Proof.
  induction rest as [|c rest IH]; intros displayed [ps cs log s];
    cbn [stream_chars stream_ui].
  - unfold ret; cbn. now rewrite !app_nil_r.
  - unfold bind at 1, show at 1; cbn [provider calls ui_log session].
    unfold bind at 1, show at 1; cbn [provider calls ui_log session].
    rewrite IH; cbn [provider calls ui_log session].
    now rewrite <- !app_assoc.
Qed.

Lemma chat_response_streaming_run chat m wd :
  chat_response_streaming (Some chat) m wd
  = (Ok (reply_text (fst (send_message chat m (provider wd)))),
     mkWorld (snd (send_message chat m (provider wd)))
       (calls wd ++ [CallSend chat m])
       (ui_log wd ++ reply_ui (fst (send_message chat m (provider wd))))
       (session wd)).
Proof.
  destruct wd as [ps cs log s].
  unfold chat_response_streaming, try_except, call_send_message.
  step. cbn [provider]. destruct (send_message chat m ps) as [[text|e] ps'];
    cbn [fst snd reply_text reply_ui].
  - step. rewrite stream_chars_run. cbn [app]. step.
    now rewrite <- app_assoc.
  - step. reflexivity.
Qed.

Lemma chat_response_streaming_none m wd :
  chat_response_streaming None m wd
  = (Ok (lit "Error: " ++ lit "'NoneType' object has no attribute 'send_message'"),
     mkWorld (provider wd) (calls wd)
       (ui_log wd ++ [Placeholder_error
          (lit "Error: " ++ lit "'NoneType' object has no attribute 'send_message'")])
       (session wd)).
Proof.
  destruct wd as [ps cs log s].
  unfold chat_response_streaming, try_except, call_send_message.
  step. unfold raise. step. reflexivity.
Qed.

Lemma main_active w wd hist chat :
  chat_history (session wd) = Some hist ->
  chat_session (session wd) = Some (Some chat) ->
  main w wd
  = buttons w (mkWorld (provider wd) (calls wd)
                 (ui_log wd ++ heading_ui ++ history_ui hist)
                 (initialised (session wd))).
Proof.
  destruct wd as [ps cs log [h c t]]; cbn [session chat_history chat_session].
  intros -> ->.
  unfold main. do 2 step.
  unfold init_chat_history, has_chat_history. do 3 step. cbn [negb]. step.
  unfold init_chat_message_input, has_chat_message_input. do 3 step.
  unfold init_chat_session, read_chat_session. do 3 step.
  unfold display_chat_history, read_chat_history. do 3 step.
  unfold read_chat_message_input.
  assert (E : forall l : list ui, (log ++ [St_header ([arrows] ++ lit " Interactive Chat")])
                ++ St_markdown (lit "Have a continuous conversation with the AI!") :: l
              = log ++ heading_ui ++ l).
  { intros l. unfold heading_ui. now rewrite <- app_assoc. }
  unfold initialised; cbn [chat_history chat_session chat_message_input].
  destruct t as [t|]; cbn [negb]; unfold write_chat_message_input;
    repeat step; destruct hist as [|p hist]; repeat step;
    try rewrite show_turns_run; repeat step;
    cbn [history_ui provider calls ui_log session];
    fold (buttons w);
    rewrite <- ?app_assoc; cbn [app]; try rewrite E; try reflexivity.
  all: rewrite <- (app_nil_r [St_markdown (lit "Have a continuous conversation with the AI!")]) at 1.
  all: cbn [app]; now rewrite E.
Qed.

Lemma main_no_session w wd :
  chat_session (initialised (session wd)) = Some None ->
  main w wd
  = match chats_create model_name (provider wd) with
    | (Returned chat, ps) =>
        buttons w
          (mkWorld ps (calls wd ++ [CallCreate model_name])
             (ui_log wd ++ heading_ui
                ++ [St_success ([check_mark] ++ lit " New chat session started!")]
                ++ history_ui (shown_history (session wd)))
             (started (session wd) chat))
    | (Raised e, ps) =>
        (StopScript,
         mkWorld ps (calls wd ++ [CallCreate model_name])
           (ui_log wd ++ heading_ui
              ++ [St_error ([cross_mark] ++ lit " Error creating chat session: " ++ e)])
           (initialised (session wd)))
    end.
Proof.
  destruct wd as [ps cs log [h c t]].
  unfold started, shown_history, initialised;
    cbn [session chat_history chat_session chat_message_input provider calls ui_log].
  intros Hc.
  assert (E : forall l : list ui, (log ++ [St_header ([arrows] ++ lit " Interactive Chat")])
                ++ St_markdown (lit "Have a continuous conversation with the AI!") :: l
              = log ++ heading_ui ++ l).
  { intros l. unfold heading_ui. now rewrite <- app_assoc. }
  unfold main. do 2 step.
  unfold init_chat_history, has_chat_history. do 3 step.
  destruct h as [hist|]; cbn [negb chat_session] in *.
  - subst c. step.
    unfold init_chat_message_input, has_chat_message_input. do 3 step.
    destruct t as [t|]; cbn [negb]; unfold write_chat_message_input; repeat step.
    all: unfold init_chat_session, read_chat_session; do 3 step.
    all: unfold try_except, call_chats_create; step; cbn [provider].
    all: destruct (chats_create model_name ps) as [[chat|e] ps'].
    all: unfold write_chat_session; repeat step.
    all: unfold display_chat_history, read_chat_history; repeat step.
    all: try (destruct hist as [|p hist]; repeat step;
              try rewrite show_turns_run; repeat step;
              unfold read_chat_message_input; repeat step;
              cbn [history_ui provider calls ui_log session];
              fold (buttons w)).
    all: rewrite <- ?app_assoc; cbn [app]; rewrite ?E; try reflexivity.
  - unfold write_chat_history, write_chat_session. repeat step.
    unfold init_chat_message_input, has_chat_message_input. repeat step.
    destruct t as [t|]; cbn [negb]; unfold write_chat_message_input; repeat step.
    all: unfold init_chat_session, read_chat_session; do 3 step.
    all: unfold try_except, call_chats_create; step; cbn [provider].
    all: destruct (chats_create model_name ps) as [[chat|e] ps'].
    all: unfold write_chat_session; repeat step.
    all: unfold display_chat_history, read_chat_history; repeat step.
    all: unfold read_chat_message_input; repeat step.
    all: cbn [history_ui provider calls ui_log session]; try fold (buttons w).
    all: rewrite <- ?app_assoc; cbn [app]; rewrite ?E; try reflexivity.
Qed.

Lemma clear_chat_clicked_run wd :
  clear_chat_clicked wd
  = (RerunScript, mkWorld (provider wd) (calls wd) (ui_log wd) cleared).
Proof.
  destruct wd as [ps cs log s].
  unfold clear_chat_clicked, write_chat_history, write_chat_session,
    write_chat_message_input.
  repeat step. reflexivity.
Qed.

Lemma send_message_clicked_blank m wd :
  truthy (strip m) = false ->
  send_message_clicked m wd
  = (Ok tt,
     mkWorld (provider wd) (calls wd)
       (ui_log wd ++ [St_warning (warning_sign ++ lit " Please enter a message first!")])
       (session wd)).
Proof.
  intros Hm. unfold send_message_clicked. rewrite Hm. reflexivity.
Qed.

Lemma send_message_clicked_run m wd hist chat :
  chat_history (session wd) = Some hist ->
  chat_session (session wd) = Some (Some chat) ->
  truthy (strip m) = true ->
  send_message_clicked m wd
  = (RerunScript,
     mkWorld (snd (send_message chat m (provider wd)))
       (calls wd ++ [CallSend chat m])
       (ui_log wd ++ St_markdown (lit "**You:** " ++ m)
          :: reply_ui (fst (send_message chat m (provider wd))))
       (mkSession
          (Some (hist ++ [(m, reply_text (fst (send_message chat m (provider wd))))]))
          (Some (Some chat)) (Some []))).
Proof.
  destruct wd as [ps cs log [h c t]]; cbn [session chat_history chat_session provider calls ui_log].
  intros -> -> Hm.
  unfold send_message_clicked. rewrite Hm.
  step. unfold try_except. step. unfold read_chat_session. do 3 step.
  rewrite chat_response_streaming_run.
  unfold append_chat_history, read_chat_history, write_chat_history,
    write_chat_message_input.
  repeat step.
  now rewrite <- app_assoc.
Qed.

Lemma initialised_history (s : session_state Handle) hist :
  chat_history s = Some hist -> chat_history (initialised s) = Some hist.
Proof. unfold initialised. now intros ->. Qed.

Lemma initialised_session (s : session_state Handle) hist :
  chat_history s = Some hist -> chat_session (initialised s) = chat_session s.
Proof. unfold initialised. now intros ->. Qed.

Lemma buttons_send w wd hist chat :
  chat_history (session wd) = Some hist ->
  chat_session (session wd) = Some (Some chat) ->
  send_clicked w = true ->
  truthy (strip (user_message w)) = true ->
  buttons w wd = send_message_clicked (user_message w) wd.
Proof.
  intros Hh Hc Hs Hm. unfold buttons. rewrite Hs. unfold bind.
  now rewrite (send_message_clicked_run _ _ hist chat Hh Hc Hm).
Qed.

(** A run in which "Send Message" is clicked with a message that is not
    blank, a chat object being stored. *)
Lemma main_send w wd hist chat :
  chat_history (session wd) = Some hist ->
  chat_session (session wd) = Some (Some chat) ->
  send_clicked w = true ->
  truthy (strip (user_message w)) = true ->
  main w wd
  = (RerunScript,
     mkWorld (snd (send_message chat (user_message w) (provider wd)))
       (calls wd ++ [CallSend chat (user_message w)])
       ((ui_log wd ++ heading_ui ++ history_ui hist)
          ++ St_markdown (lit "**You:** " ++ user_message w)
          :: reply_ui (fst (send_message chat (user_message w) (provider wd))))
       (mkSession
          (Some (hist ++ [(user_message w,
                           reply_text (fst (send_message chat (user_message w) (provider wd))))]))
          (Some (Some chat)) (Some []))).
Proof.
  intros Hh Hc Hs Hm.
  rewrite (main_active w wd hist chat Hh Hc).
  assert (Hh' := initialised_history _ hist Hh).
  assert (Hc' : chat_session (initialised (session wd)) = Some (Some chat))
    by now rewrite (initialised_session _ hist Hh).
  set (wd' := mkWorld (provider wd) (calls wd)
                (ui_log wd ++ heading_ui ++ history_ui hist)
                (initialised (session wd))).
  rewrite (buttons_send w wd' hist chat Hh' Hc' Hs Hm).
  now rewrite (send_message_clicked_run _ wd' hist chat Hh' Hc' Hm).
Qed.

End Runs.

(** ** The turn whose exchange fails *)

(** C1 (as amended).  When "Send Message" is clicked on an active session
    and the provider's exchange raises an exception with message [e], the
    run ends in [st.rerun()] with the pair [(user_message, "Error: " ++ e)]
    appended to the history: the earlier pairs are kept, the history is one
    pair longer, the chat object is the same and the exchange was called
    once. *)
Theorem failed_turn_is_recorded
    {Handle PState : Type} {P : Provider Handle PState}
    (wd : world Handle PState) (w : widgets)
    (hist : list (str * str)) (chat : Handle) (e : str) (ps' : PState) :
  chat_history (session wd) = Some hist ->
  chat_session (session wd) = Some (Some chat) ->
  send_clicked w = true ->
  truthy (strip (user_message w)) = true ->
  send_message chat (user_message w) (provider wd) = (Raised e, ps') ->
  fst (main w wd) = RerunScript
  /\ chat_history (session (snd (main w wd)))
     = Some (hist ++ [(user_message w, lit "Error: " ++ e)])
  /\ chat_session (session (snd (main w wd))) = Some (Some chat)
  /\ calls (snd (main w wd)) = calls wd ++ [CallSend chat (user_message w)]
  /\ provider (snd (main w wd)) = ps'.
Proof.
  intros Hh Hc Hs Hm He.
  rewrite (main_send w wd hist chat Hh Hc Hs Hm), He.
  cbn. repeat split.
Qed.

Lemma failed_turn_is_recorded_witness :
  chat_history (session (snd (main (send_widgets (lit "ping")) ping_fails)))
  = Some ([] ++ [(lit "ping", lit "Error: " ++ lit "network failure")]).
Proof.
  refine (proj1 (proj2 (failed_turn_is_recorded (P := Scripted.service)
            ping_fails (send_widgets (lit "ping")) [] 0
            (lit "network failure") (Scripted.mkScript [] []) _ _ _ _ _)));
    reflexivity.
Defined.

(** C1 (as stated) fails: after the failing "ping" the history is not what
    it was; it holds the user message with the error text as its reply. *)
Lemma failed_turn_counterexample :
  send_message (Provider := Scripted.service) 0 (lit "ping") (provider ping_fails)
  = (Raised (lit "network failure"), Scripted.mkScript [] [])
  /\ chat_history (session ping_fails) = Some []
  /\ chat_history (session (snd (main (send_widgets (lit "ping")) ping_fails)))
     = Some [(lit "ping", lit "Error: network failure")]
  /\ chat_history (session (snd (main (send_widgets (lit "ping")) ping_fails)))
     <> chat_history (session ping_fails).
Proof.
  repeat split; try reflexivity.
  vm_compute. discriminate.
Qed.

(** ** The session after a failed turn *)

Section Events.

Context {Handle PState : Type} {P : Provider Handle PState}.

Implicit Types (wd : world Handle PState) (w : widgets).

Lemma buttons_no_click w wd : buttons (no_click w) wd = (Ok tt, wd).
Proof. destruct wd. reflexivity. Qed.

(** "Send Message" with a message that is not blank on an active
    session, handled to its end. *)
Lemma handle_event_send w wd hist chat :
  chat_history (session wd) = Some hist ->
  chat_session (session wd) = Some (Some chat) ->
  send_clicked w = true ->
  truthy (strip (user_message w)) = true ->
  fst (handle_event w wd) = Ok tt
  /\ session (snd (handle_event w wd))
     = mkSession
         (Some (hist ++ [(user_message w,
                          reply_text (fst (send_message chat (user_message w) (provider wd))))]))
         (Some (Some chat)) (Some [])
  /\ calls (snd (handle_event w wd)) = calls wd ++ [CallSend chat (user_message w)]
  /\ provider (snd (handle_event w wd))
     = snd (send_message chat (user_message w) (provider wd)).
Proof.
  intros Hh Hc Hs Hm. unfold handle_event.
  rewrite (main_send w wd hist chat Hh Hc Hs Hm).
  erewrite main_active by reflexivity.
  rewrite buttons_no_click. cbn. repeat split.
Qed.

Lemma run_events_sends msgs : forall wd hist chat,
  chat_history (session wd) = Some hist ->
  chat_session (session wd) = Some (Some chat) ->
  Forall (fun m => truthy (strip m) = true) msgs ->
  chat_history (session (run_events (map send_widgets msgs) wd))
  = Some (hist ++ combine msgs (map reply_text (exchanges chat msgs (provider wd))))
  /\ chat_session (session (run_events (map send_widgets msgs) wd)) = Some (Some chat)
  /\ calls (run_events (map send_widgets msgs) wd)
     = calls wd ++ map (CallSend chat) msgs.
Proof.
  induction msgs as [|m msgs IH]; intros wd hist chat Hh Hc Hall; cbn [map run_events].
  - cbn. now rewrite !app_nil_r.
  - inversion Hall as [|? ? Hm Hrest]; subst.
    destruct (handle_event_send (send_widgets m) wd hist chat Hh Hc eq_refl Hm)
      as (_ & Hs & Hcalls & Hp).
    specialize (IH (snd (handle_event (send_widgets m) wd))
                  (hist ++ [(m, reply_text (fst (send_message chat m (provider wd))))])
                  chat).
    rewrite Hs in IH. cbn [chat_history chat_session] in IH.
    destruct (IH eq_refl eq_refl Hrest) as (IH1 & IH2 & IH3).
    split; [|split; [exact IH2|]].
    + rewrite IH1, Hp. cbn [exchanges map combine user_message send_widgets].
      now rewrite <- app_assoc.
    + rewrite IH3, Hcalls. cbn [user_message send_widgets].
      now rewrite <- app_assoc.
Qed.

End Events.

Section Console.

Context {Handle PState : Type} {P : Provider Handle PState}.

Implicit Types (c : Cli.console Handle PState).

(** One round of the console loop on a line that is not a command. *)
Lemma conversation_loop_line chat user_input rest c :
  leaves user_input = false ->
  Cli.conversation_loop chat (user_input :: rest) c
  = match send_message chat user_input (Cli.provider c) with
    | (Returned text, ps) =>
        Cli.conversation_loop chat rest
          (Cli.mkConsole ps (Cli.calls c ++ [CallSend chat user_input])
             ((Cli.stdout c ++ [Cli.Prompt (lit "You: ")])
                ++ [Cli.Print (lit "Bot: " ++ text)]))
    | (Raised e, ps) =>
        (Raised e, rest,
         Cli.mkConsole ps (Cli.calls c ++ [CallSend chat user_input])
           (Cli.stdout c ++ [Cli.Prompt (lit "You: ")]))
    end.
Proof.
  intros Hl. unfold leaves in Hl. cbn [Cli.conversation_loop]. rewrite Hl.
  unfold Cli.send_and_print, Cli.prompt, Cli.print.
  cbn [Cli.provider Cli.calls Cli.stdout].
  now destruct (send_message chat user_input (Cli.provider c)) as [[text|e] ps].
Qed.

End Console.

(** C2 (as amended).  In the Streamlit script a turn whose exchange fails
    leaves the chat object in place, and the next "Send Message" on it, if
    the provider replies, appends its pair after the pair recorded for the
    failed turn.  In the console script the exception leaves the loop: the
    error is printed, the lines still to be read stay unread and no other
    call is made on the chat object. *)
Theorem session_after_failed_turn
    {Handle PState : Type} {P : Provider Handle PState} :
  (forall (wd : world Handle PState) (w1 w2 : widgets)
          (hist : list (str * str)) (chat : Handle)
          (e reply : str) (ps1 ps2 : PState),
      chat_history (session wd) = Some hist ->
      chat_session (session wd) = Some (Some chat) ->
      send_clicked w1 = true ->
      truthy (strip (user_message w1)) = true ->
      send_message chat (user_message w1) (provider wd) = (Raised e, ps1) ->
      send_clicked w2 = true ->
      truthy (strip (user_message w2)) = true ->
      send_message chat (user_message w2) ps1 = (Returned reply, ps2) ->
      let wd1 := snd (handle_event w1 wd) in
      let wd2 := snd (handle_event w2 wd1) in
      fst (handle_event w1 wd) = Ok tt
      /\ chat_session (session wd1) = Some (Some chat)
      /\ fst (handle_event w2 wd1) = Ok tt
      /\ chat_session (session wd2) = Some (Some chat)
      /\ chat_history (session wd2)
         = Some ((hist ++ [(user_message w1, lit "Error: " ++ e)])
                   ++ [(user_message w2, reply)]))
  /\
  (forall (c : Cli.console Handle PState) (chat : Handle)
          (user_input : str) (rest : list str) (e : str) (ps1 ps2 : PState),
      chats_create model_name (Cli.provider c) = (Returned chat, ps1) ->
      leaves user_input = false ->
      send_message chat user_input ps1 = (Raised e, ps2) ->
      let r := Cli.start_chat_conversation (user_input :: rest) c in
      fst r = rest
      /\ Cli.provider (snd r) = ps2
      /\ Cli.calls (snd r)
         = Cli.calls c ++ [CallCreate model_name; CallSend chat user_input]
      /\ exists shown,
           Cli.stdout (snd r)
           = shown ++ [Cli.Print (lit "An error occurred during the chat session: " ++ e)]).
Proof.
  split.
  - intros wd w1 w2 hist chat e reply ps1 ps2 Hh Hc Hs1 Hm1 He Hs2 Hm2 Hr wd1 wd2.
    destruct (handle_event_send w1 wd hist chat Hh Hc Hs1 Hm1) as (R1 & S1 & _ & P1).
    rewrite He in S1, P1. cbn [fst snd reply_text] in S1, P1.
    assert (Hh1 : chat_history (session wd1)
                  = Some (hist ++ [(user_message w1, lit "Error: " ++ e)]))
      by (subst wd1; now rewrite S1).
    assert (Hc1 : chat_session (session wd1) = Some (Some chat))
      by (subst wd1; now rewrite S1).
    destruct (handle_event_send w2 wd1 _ chat Hh1 Hc1 Hs2 Hm2) as (R2 & S2 & _ & _).
    fold wd1 in P1. rewrite P1, Hr in S2. cbn [fst reply_text] in S2.
    subst wd2. rewrite S2. cbn [chat_session chat_history]. repeat split; assumption.
  - intros c chat user_input rest e ps1 ps2 Hcr Hl He r. subst r.
    unfold Cli.start_chat_conversation.
    cbn [Cli.print Cli.provider Cli.calls Cli.stdout]. rewrite Hcr.
    rewrite (conversation_loop_line chat user_input rest _ Hl).
    cbn [Cli.provider Cli.calls Cli.stdout]. rewrite He.
    cbn [fst snd Cli.print Cli.provider Cli.calls Cli.stdout].
    rewrite <- app_assoc. repeat split. eexists. reflexivity.
Qed.

Lemma session_after_failed_turn_witness :
  chat_history
    (session (snd (handle_event (send_widgets (lit "pong"))
                     (snd (handle_event (send_widgets (lit "ping"))
                             (Scripted.active 7 []
                                (Scripted.mkScript [] (Scripted.replies ping_fails_pong_replies))))))))
  = Some (([] ++ [(lit "ping", lit "Error: " ++ lit "network failure")])
            ++ [(lit "pong", lit "pong to you")])
  /\ fst (Cli.start_chat_conversation [lit "ping"; lit "pong"] console_start)
     = [lit "pong"].
Proof.
  split.
  - refine (proj2 (proj2 (proj2 (proj2
      (proj1 (session_after_failed_turn (P := Scripted.service))
         (Scripted.active 7 []
            (Scripted.mkScript [] (Scripted.replies ping_fails_pong_replies)))
         (send_widgets (lit "ping")) (send_widgets (lit "pong")) [] 7
         (lit "network failure") (lit "pong to you")
         (Scripted.mkScript [] [Returned (lit "pong to you")])
         (Scripted.mkScript [] [])
         _ _ _ _ _ _ _ _))))); reflexivity.
  - refine (proj1
      (proj2 (session_after_failed_turn (P := Scripted.service))
         console_start 7 (lit "ping") [lit "pong"] (lit "network failure")
         (Scripted.mkScript [] (Scripted.replies ping_fails_pong_replies))
         (Scripted.mkScript [] [Returned (lit "pong to you")])
         _ _ _)); reflexivity.
Defined.

(** C2 (as stated) fails on the console: after the failing "ping" the
    conversation is over.  "pong" is left unread and is never sent,
    although the provider had a reply for it. *)
Lemma failed_turn_ends_console_chat :
  let r := Cli.start_chat_conversation [lit "ping"; lit "pong"] console_start in
  fst r = [lit "pong"]
  /\ Cli.calls (snd r) = [CallCreate model_name; CallSend 7 (lit "ping")]
  /\ Scripted.replies (Cli.provider (snd r)) = [Returned (lit "pong to you")]
  /\ last (Cli.stdout (snd r)) (Cli.Prompt [])
     = Cli.Print (lit "An error occurred during the chat session: network failure").
Proof. repeat split. Qed.

(** ** Blank input *)

Section Blank.

Lemma lstrip_nil s : lstrip s = [] -> forallb isspace s = true.
Proof.
  induction s as [|c s IH]; cbn [lstrip forallb]; [reflexivity|].
  destruct (isspace c); [exact IH | discriminate].
Qed.

Lemma lstrip_spaces s : forallb isspace s = true -> lstrip s = [].
Proof.
  induction s as [|c s IH]; cbn [lstrip forallb]; [reflexivity|].
  destruct (isspace c); [exact IH | discriminate].
Qed.

Lemma lstrip_head s : lstrip s <> [] -> exists c t, lstrip s = c :: t /\ isspace c = false.
Proof.
  induction s as [|c s IH]; cbn [lstrip]; [congruence|].
  destruct (isspace c) eqn:E; [exact IH|].
  intros _. now exists c, s.
Qed.

(** [s.strip()] is empty exactly when [s] is made of white space. *)
Lemma strip_blank s : truthy (strip s) = false <-> forallb isspace s = true.
Proof.
  unfold strip, rstrip. split.
  - intros H.
    assert (E : lstrip (rev (lstrip s)) = []).
    { destruct (lstrip (rev (lstrip s))) as [|c t] eqn:E; [reflexivity|].
      cbn [rev] in H. destruct (rev t); discriminate. }
    apply lstrip_nil in E. rewrite forallb_forall in E.
    destruct (list_eq_dec N.eq_dec (lstrip s) []) as [E0|E0];
      [now apply lstrip_nil|].
    destruct (lstrip_head s E0) as (c & t & Hs & Hc).
    rewrite (E c) in Hc; [discriminate|].
    apply in_rev. rewrite rev_involutive, Hs. now left.
  - intros H. now rewrite (lstrip_spaces s H).
Qed.

(** A blank line is not one of the commands that end the console loop. *)
Lemma blank_is_no_command s : truthy (strip s) = false -> leaves s = false.
Proof.
  intros H. apply strip_blank in H.
  unfold leaves, str_in, existsb, str_eqb.
  destruct (list_eq_dec N.eq_dec (lower s) (lit "exit")) as [E|_];
    [|destruct (list_eq_dec N.eq_dec (lower s) (lit "quit")) as [E|_]];
    [| |reflexivity].
  all: destruct s as [|c s]; [discriminate E|].
  all: cbn [forallb] in H; apply andb_prop in H; destruct H as [Hc _].
  all: injection E as Ec _.
  all: unfold lower_char in Ec.
  all: destruct ((65 <=? c) && (c <=? 90))%N eqn:Hr.
  all: try (subst c; discriminate Hc).
  all: assert (c = 69%N \/ c = 81%N) as [-> | ->] by lia; discriminate Hc.
Qed.

End Blank.

Section BlankInput.

Context {Handle PState : Type} {P : Provider Handle PState}.

Lemma main_blank (w : widgets) (wd : world Handle PState) hist chat :
  chat_history (session wd) = Some hist ->
  chat_session (session wd) = Some (Some chat) ->
  send_clicked w = true ->
  clear_clicked w = false ->
  truthy (strip (user_message w)) = false ->
  main w wd
  = (Ok tt,
     mkWorld (provider wd) (calls wd)
       ((ui_log wd ++ heading_ui ++ history_ui hist)
          ++ [St_warning (warning_sign ++ lit " Please enter a message first!")])
       (initialised (session wd))).
Proof.
  intros Hh Hc Hs Hcl Hm.
  rewrite (main_active w wd hist chat Hh Hc).
  unfold buttons. rewrite Hs, Hcl. unfold bind at 1.
  now rewrite (send_message_clicked_blank _ _ Hm).
Qed.

(** The console loop only adds to the log of calls. *)
Lemma conversation_loop_calls chat stdin : forall c : Cli.console Handle PState,
  exists more,
    Cli.calls (snd (Cli.conversation_loop chat stdin c)) = Cli.calls c ++ more.
Proof.
  induction stdin as [|line rest IH]; intros c.
  - exists []. cbn. now rewrite app_nil_r.
  - destruct (leaves line) eqn:Hl.
    + exists []. unfold leaves in Hl. cbn [Cli.conversation_loop]. rewrite Hl.
      cbn. now rewrite app_nil_r.
    + rewrite (conversation_loop_line chat line rest c Hl).
      destruct (send_message chat line (Cli.provider c)) as [[text|e] ps].
      * destruct (IH (Cli.mkConsole ps (Cli.calls c ++ [CallSend chat line])
                        ((Cli.stdout c ++ [Cli.Prompt (lit "You: ")])
                           ++ [Cli.Print (lit "Bot: " ++ text)]))) as [more Hmore].
        exists (CallSend chat line :: more). rewrite Hmore.
        cbn [Cli.calls]. now rewrite <- app_assoc.
      * now exists [CallSend chat line].
Qed.

End BlankInput.

(** C3 (as amended).  In the Streamlit script, "Send Message" on an active
    session with an input that is empty or white space only is turned down
    on the spot with the warning "Please enter a message first!" (no
    exception is raised): the run makes no provider call and the history
    and the chat object are what they were.  The console script has no
    such test: a blank line is sent to the provider like any other line. *)
Theorem blank_input_is_turned_down
    {Handle PState : Type} {P : Provider Handle PState} :
  (forall (wd : world Handle PState) (w : widgets)
          (hist : list (str * str)) (chat : Handle),
      chat_history (session wd) = Some hist ->
      chat_session (session wd) = Some (Some chat) ->
      send_clicked w = true ->
      clear_clicked w = false ->
      truthy (strip (user_message w)) = false ->
      fst (main w wd) = Ok tt
      /\ calls (snd (main w wd)) = calls wd
      /\ provider (snd (main w wd)) = provider wd
      /\ chat_history (session (snd (main w wd))) = Some hist
      /\ chat_session (session (snd (main w wd))) = Some (Some chat)
      /\ last (ui_log (snd (main w wd))) Time_sleep
         = St_warning (warning_sign ++ lit " Please enter a message first!"))
  /\
  (forall (c : Cli.console Handle PState) (chat : Handle)
          (user_input : str) (rest : list str),
      truthy (strip user_input) = false ->
      exists more,
        Cli.calls (snd (Cli.conversation_loop chat (user_input :: rest) c))
        = Cli.calls c ++ CallSend chat user_input :: more).
Proof.
  split.
  - intros wd w hist chat Hh Hc Hs Hcl Hm.
    rewrite (main_blank w wd hist chat Hh Hc Hs Hcl Hm).
    cbn [fst snd provider calls ui_log session].
    rewrite (initialised_history _ hist Hh), (initialised_session _ hist Hh), Hc.
    repeat split. apply last_last.
  - intros c chat user_input rest Hm.
    rewrite (conversation_loop_line chat user_input rest c (blank_is_no_command _ Hm)).
    destruct (send_message chat user_input (Cli.provider c)) as [[text|e] ps].
    + destruct (conversation_loop_calls chat rest
                  (Cli.mkConsole ps (Cli.calls c ++ [CallSend chat user_input])
                     ((Cli.stdout c ++ [Cli.Prompt (lit "You: ")])
                        ++ [Cli.Print (lit "Bot: " ++ text)]))) as [more Hmore].
      exists more. rewrite Hmore. cbn [Cli.calls]. now rewrite <- app_assoc.
    + now exists [].
Qed.

Lemma blank_input_is_turned_down_witness :
  calls (snd (main (send_widgets spaces)
                (Scripted.active 7 [] (Scripted.mkScript [] [Returned (lit "Hi")]))))
  = []
  /\ exists more,
       Cli.calls (snd (Cli.conversation_loop 7 [spaces; lit "quit"] console_start))
       = [] ++ CallSend 7 spaces :: more.
Proof.
  split.
  - refine (proj1 (proj2
      (proj1 (blank_input_is_turned_down (P := Scripted.service))
         (Scripted.active 7 [] (Scripted.mkScript [] [Returned (lit "Hi")]))
         (send_widgets spaces) [] 7 _ _ _ _ _))); reflexivity.
  - refine (proj2 (blank_input_is_turned_down (P := Scripted.service))
              console_start 7 spaces [lit "quit"] _); reflexivity.
Defined.

(** C3 (as stated) fails on the console: three spaces typed at the prompt
    are sent to the provider, and the reply is printed. *)
Lemma blank_line_reaches_provider :
  truthy (strip spaces) = false
  /\ (let r := Cli.start_chat_conversation [spaces; lit "quit"]
                 (Cli.mkConsole
                    (Scripted.mkScript [Returned 7] [Returned (lit "Hi")]) [] []) in
      Cli.calls (snd r) = [CallCreate model_name; CallSend 7 spaces]
      /\ In (Cli.Print (lit "Bot: Hi")) (Cli.stdout (snd r))).
Proof.
  split; [reflexivity|]. split; [reflexivity|].
  cbn. right. right. right. now left.
Qed.

(** ** Sending and starting without a session *)

(** C4 (as amended).  When "Send Message" is clicked with a message that
    is not blank while no chat object is stored, the run first asks the
    provider for a new session.  If that fails the run stops and the
    exchange is never called; if it succeeds the message is sent on the new
    session and the turn is recorded.  [chat_response_streaming] itself,
    given no chat object, returns an error text without calling the
    provider. *)
Theorem send_without_session
    {Handle PState : Type} {P : Provider Handle PState} :
  (forall (wd : world Handle PState) (w : widgets),
      chat_session (initialised (session wd)) = Some None ->
      send_clicked w = true ->
      truthy (strip (user_message w)) = true ->
      match chats_create model_name (provider wd) with
      | (Raised e, ps) =>
          fst (main w wd) = StopScript
          /\ calls (snd (main w wd)) = calls wd ++ [CallCreate model_name]
          /\ provider (snd (main w wd)) = ps
          /\ session (snd (main w wd)) = initialised (session wd)
      | (Returned chat, ps) =>
          fst (main w wd) = RerunScript
          /\ calls (snd (main w wd))
             = calls wd ++ [CallCreate model_name; CallSend chat (user_message w)]
          /\ provider (snd (main w wd)) = snd (send_message chat (user_message w) ps)
          /\ chat_session (session (snd (main w wd))) = Some (Some chat)
          /\ chat_history (session (snd (main w wd)))
             = Some (shown_history (session wd)
                       ++ [(user_message w,
                            reply_text (fst (send_message chat (user_message w) ps)))])
      end)
  /\
  (forall (wd : world Handle PState) (user_message : str),
      fst (chat_response_streaming None user_message wd)
      = Ok (lit "Error: " ++ lit "'NoneType' object has no attribute 'send_message'")
      /\ calls (snd (chat_response_streaming None user_message wd)) = calls wd
      /\ provider (snd (chat_response_streaming None user_message wd)) = provider wd).
Proof.
  split.
  - intros wd w Hn Hs Hm. rewrite (main_no_session w wd Hn).
    destruct (chats_create model_name (provider wd)) as [[chat|e] ps].
    + assert (Hh : chat_history (started (session wd) chat)
                   = Some (shown_history (session wd))).
      { unfold started, shown_history, initialised.
        now destruct (chat_history (session wd)). }
      set (wd' := mkWorld ps (calls wd ++ [CallCreate model_name])
                    (ui_log wd ++ heading_ui
                       ++ [St_success ([check_mark] ++ lit " New chat session started!")]
                       ++ history_ui (shown_history (session wd)))
                    (started (session wd) chat)).
      rewrite (buttons_send w wd' (shown_history (session wd)) chat Hh eq_refl Hs Hm).
      rewrite (send_message_clicked_run _ wd' (shown_history (session wd)) chat Hh eq_refl Hm).
      subst wd'.
      cbn [fst snd provider calls ui_log session chat_history chat_session].
      rewrite <- app_assoc. repeat split.
    + repeat split.
  - intros wd m. rewrite chat_response_streaming_none. repeat split.
Qed.

Lemma send_without_session_witness :
  (fst (main (send_widgets (lit "Hello")) (Scripted.no_session one_session_one_reply))
   = RerunScript
   /\ calls (snd (main (send_widgets (lit "Hello")) (Scripted.no_session one_session_one_reply)))
      = [] ++ [CallCreate model_name; CallSend 3 (lit "Hello")])
  /\ fst (main (send_widgets (lit "Hello")) (Scripted.no_session refused)) = StopScript.
Proof.
  split.
  - pose proof (proj1 (send_without_session (P := Scripted.service))
                  (Scripted.no_session one_session_one_reply)
                  (send_widgets (lit "Hello")) eq_refl eq_refl eq_refl) as H.
    split; [exact (proj1 H) | exact (proj1 (proj2 H))].
  - exact (proj1 (proj1 (send_without_session (P := Scripted.service))
                    (Scripted.no_session refused)
                    (send_widgets (lit "Hello")) eq_refl eq_refl eq_refl)).
Defined.

(** C4 (as stated) fails: with no chat object stored, "Send Message" with
    "Hello" does not fail.  A session is created on the way, the exchange
    is called on it and the turn is recorded. *)
Lemma send_without_session_succeeds :
  let wd := Scripted.no_session one_session_one_reply in
  let r := main (send_widgets (lit "Hello")) wd in
  chat_session (session wd) = Some None
  /\ fst r = RerunScript
  /\ calls (snd r) = [CallCreate model_name; CallSend 3 (lit "Hello")]
  /\ existsb is_send (calls (snd r)) = true
  /\ session (snd r)
     = mkSession (Some [(lit "Hello", lit "Hi there")]) (Some (Some 3)) (Some []).
Proof. repeat split. Qed.

(** C6.  When no chat object is stored and the provider refuses to create
    a session, the error is shown ("Error creating chat session: ..."), the
    run stops there, and the session state keeps no chat object: it is the
    initialised state, with [chat_session] still [None]; only the creation
    was asked of the provider. *)
Theorem creation_failure_leaves_no_session
    {Handle PState : Type} {P : Provider Handle PState}
    (wd : world Handle PState) (w : widgets) (e : str) (ps : PState) :
  chat_session (initialised (session wd)) = Some None ->
  chats_create model_name (provider wd) = (Raised e, ps) ->
  main w wd
  = (StopScript,
     mkWorld ps (calls wd ++ [CallCreate model_name])
       (ui_log wd ++ heading_ui
          ++ [St_error ([cross_mark] ++ lit " Error creating chat session: " ++ e)])
       (initialised (session wd)))
  /\ handle_event w wd = main w wd
  /\ chat_session (session (snd (main w wd))) = Some None
  /\ chat_history (session (snd (main w wd))) = Some (shown_history (session wd)).
Proof.
  intros Hn He.
  assert (Hrun := main_no_session w wd Hn). rewrite He in Hrun.
  unfold handle_event. rewrite Hrun. cbn [fst snd session].
  repeat split; [exact Hn|].
  unfold shown_history, initialised. now destruct (chat_history (session wd)).
Qed.

Lemma creation_failure_leaves_no_session_witness :
  chat_session (session (snd (main (mkWidgets [] false false) (Scripted.fresh refused))))
  = Some None.
Proof.
  refine (proj1 (proj2 (proj2
    (creation_failure_leaves_no_session (P := Scripted.service)
       (Scripted.fresh refused) (mkWidgets [] false false)
       (lit "API key not valid") (Scripted.mkScript [] [Returned (lit "Hi there")])
       _ _)))); reflexivity.
Defined.

(** ** Clear Chat *)

Section Clear.

Context {Handle PState : Type} {P : Provider Handle PState}.

(** "Clear Chat" is reached when "Send Message" was not clicked, or was
    clicked on a blank input. *)
Lemma buttons_clear (w : widgets) (wd : world Handle PState) :
  clear_clicked w = true ->
  send_clicked w = false \/ truthy (strip (user_message w)) = false ->
  fst (buttons w wd) = RerunScript
  /\ session (snd (buttons w wd)) = cleared
  /\ calls (snd (buttons w wd)) = calls wd
  /\ provider (snd (buttons w wd)) = provider wd.
Proof.
  intros Hcl Hsend. unfold buttons. rewrite Hcl.
  destruct (send_clicked w) eqn:Hs.
  - destruct Hsend as [Hsend|Hm]; [discriminate|].
    unfold bind. rewrite (send_message_clicked_blank _ _ Hm), clear_chat_clicked_run.
    repeat split.
  - unfold bind, ret. rewrite clear_chat_clicked_run. repeat split.
Qed.

Lemma main_reaches_buttons (w : widgets) (wd : world Handle PState) :
  reaches_buttons wd -> exists wd', main w wd = buttons w wd'.
Proof.
  unfold reaches_buttons. intros H.
  destruct (chat_session (initialised (session wd))) as [[chat|]|] eqn:Hc;
    [| |contradiction].
  - destruct (chat_history (session wd)) as [hist|] eqn:Hh.
    + rewrite (initialised_session _ hist Hh) in Hc.
      rewrite (main_active w wd hist chat Hh Hc). eauto.
    + unfold initialised in Hc. rewrite Hh in Hc. discriminate.
  - destruct H as (chat & ps & Hcr).
    rewrite (main_no_session w wd Hc), Hcr. eauto.
Qed.

End Clear.

(** C5.  The "Clear Chat" handler, from any session state, ends the run in
    [st.rerun()] with the history emptied and the chat object dropped in the
    same step; doing it twice gives the state of doing it once; and a run of
    [main] in which "Clear Chat" is reached, from a state with or without a
    chat object, ends in that state. *)
Theorem clear_chat_resets
    {Handle PState : Type} {P : Provider Handle PState} :
  (forall wd : world Handle PState,
      fst (clear_chat_clicked wd) = RerunScript
      /\ chat_session (session (snd (clear_chat_clicked wd))) = Some None
      /\ chat_history (session (snd (clear_chat_clicked wd))) = Some [])
  /\
  (forall wd : world Handle PState,
      session (snd (clear_chat_clicked (snd (clear_chat_clicked wd))))
      = session (snd (clear_chat_clicked wd)))
  /\
  (forall (wd : world Handle PState) (w : widgets),
      clear_clicked w = true ->
      send_clicked w = false \/ truthy (strip (user_message w)) = false ->
      reaches_buttons wd ->
      fst (main w wd) = RerunScript
      /\ chat_session (session (snd (main w wd))) = Some None
      /\ chat_history (session (snd (main w wd))) = Some []).
Proof.
  split; [|split].
  - intros wd. rewrite clear_chat_clicked_run. repeat split.
  - intros wd. now rewrite !clear_chat_clicked_run.
  - intros wd w Hcl Hsend Hr.
    destruct (main_reaches_buttons w wd Hr) as [wd' ->].
    destruct (buttons_clear w wd' Hcl Hsend) as (-> & -> & _).
    repeat split.
Qed.

Lemma clear_chat_resets_witness :
  (chat_history (session (snd (main clear_widgets
      (Scripted.active 3 two_turns (Scripted.mkScript [] []))))) = Some [])
  /\ chat_history (session (snd (main clear_widgets
      (Scripted.no_session one_session_one_reply)))) = Some [].
Proof.
  split.
  - refine (proj2 (proj2 (proj2 (proj2 (clear_chat_resets (P := Scripted.service)))
      (Scripted.active 3 two_turns (Scripted.mkScript [] [])) clear_widgets
      eq_refl (or_introl eq_refl) _))).
    exact I.
  - refine (proj2 (proj2 (proj2 (proj2 (clear_chat_resets (P := Scripted.service)))
      (Scripted.no_session one_session_one_reply) clear_widgets
      eq_refl (or_introl eq_refl) _))).
    exists 3, (Scripted.mkScript [] [Returned (lit "Hi there")]). reflexivity.
Defined.

(** C10.  The "Clear Chat" handler sets the three fields to the values they
    are initialised with (empty history, no chat object, empty input) and
    touches nothing else: the provider, the log of provider calls and what
    is shown are the same after it.  A run of [main] on an active session in
    which "Clear Chat" is reached makes no provider call. *)
Theorem clear_chat_is_local
    {Handle PState : Type} {P : Provider Handle PState} :
  (forall wd : world Handle PState,
      clear_chat_clicked wd
      = (RerunScript,
         mkWorld (provider wd) (calls wd) (ui_log wd)
           (mkSession (Some []) (Some None) (Some []))))
  /\
  (forall (wd : world Handle PState) (w : widgets)
          (hist : list (str * str)) (chat : Handle),
      chat_history (session wd) = Some hist ->
      chat_session (session wd) = Some (Some chat) ->
      clear_clicked w = true ->
      send_clicked w = false \/ truthy (strip (user_message w)) = false ->
      fst (main w wd) = RerunScript
      /\ session (snd (main w wd)) = mkSession (Some []) (Some None) (Some [])
      /\ calls (snd (main w wd)) = calls wd
      /\ provider (snd (main w wd)) = provider wd).
Proof.
  split.
  - intros wd. apply clear_chat_clicked_run.
  - intros wd w hist chat Hh Hc Hcl Hsend.
    rewrite (main_active w wd hist chat Hh Hc).
    exact (buttons_clear w
             (mkWorld (provider wd) (calls wd)
                (ui_log wd ++ heading_ui ++ history_ui hist)
                (initialised (session wd)))
             Hcl Hsend).
Qed.

Lemma clear_chat_is_local_witness :
  session (snd (main clear_widgets
                  (Scripted.active 3 two_turns one_session_one_reply)))
  = mkSession (Some []) (Some None) (Some [])
  /\ calls (snd (main clear_widgets
                   (Scripted.active 3 two_turns one_session_one_reply))) = [].
Proof.
  pose proof (proj2 (clear_chat_is_local (P := Scripted.service))
                (Scripted.active 3 two_turns one_session_one_reply) clear_widgets
                two_turns 3 eq_refl eq_refl eq_refl (or_introl eq_refl)) as H.
  split; [exact (proj1 (proj2 H)) | exact (proj1 (proj2 (proj2 H)))].
Defined.

(** ** Successful turns *)

Lemma nth_error_combine {A B : Type} (l1 : list A) (l2 : list B) :
  forall i a b,
    nth_error l1 i = Some a -> nth_error l2 i = Some b ->
    nth_error (combine l1 l2) i = Some (a, b).
Proof.
  revert l2; induction l1 as [|x l1 IH]; intros [|y l2] [|i] a b H1 H2;
    cbn in *; try discriminate.
  - congruence.
  - now apply IH.
Qed.

Lemma exchanges_length {Handle PState : Type} {P : Provider Handle PState}
    (chat : Handle) (msgs : list str) :
  forall ps, List.length (exchanges chat msgs ps) = List.length msgs.
Proof.
  induction msgs as [|m msgs IH]; intros ps; cbn [exchanges List.length];
    [reflexivity | now rewrite IH].
Qed.

(** C7.  On an active session, after a sequence of "Send Message" actions
    whose messages are not blank and whose exchanges all return a reply, the
    history is the one before followed by the pairs (message, reply) in the
    order of the actions: it has grown by the number of actions, the pair at
    place [i] among the new ones is that of the [i]-th action, and the
    provider was called once per action, in that order. *)
Theorem transcript_follows_successful_sends
    {Handle PState : Type} {P : Provider Handle PState}
    (wd : world Handle PState) (hist : list (str * str)) (chat : Handle)
    (msgs replies : list str) :
  chat_history (session wd) = Some hist ->
  chat_session (session wd) = Some (Some chat) ->
  Forall (fun m => truthy (strip m) = true) msgs ->
  exchanges chat msgs (provider wd) = map Returned replies ->
  let wd' := run_events (map send_widgets msgs) wd in
  chat_history (session wd') = Some (hist ++ combine msgs replies)
  /\ List.length (hist ++ combine msgs replies) = List.length hist + List.length msgs
  /\ (forall i m r,
         nth_error msgs i = Some m -> nth_error replies i = Some r ->
         nth_error (hist ++ combine msgs replies) (List.length hist + i) = Some (m, r))
  /\ calls wd' = calls wd ++ map (CallSend chat) msgs.
Proof.
  intros Hh Hc Hall Hex wd'.
  destruct (run_events_sends msgs wd hist chat Hh Hc Hall) as (H1 & _ & H3).
  assert (Hlen : List.length replies = List.length msgs).
  { rewrite <- (exchanges_length chat msgs (provider wd)), Hex. now rewrite length_map. }
  rewrite Hex, map_map in H1. cbn [reply_text] in H1. rewrite map_id in H1.
  split; [exact H1|]. split; [|split; [|exact H3]].
  - rewrite length_app, length_combine, Hlen. lia.
  - intros i m r Hm Hr.
    rewrite nth_error_app2 by lia.
    replace (List.length hist + i - List.length hist) with i by lia.
    now apply nth_error_combine.
Qed.

Lemma transcript_follows_successful_sends_witness :
  chat_history
    (session (run_events (map send_widgets [lit "Hello"; lit "How are you?"])
                (Scripted.active 3 [] two_replies)))
  = Some ([] ++ combine [lit "Hello"; lit "How are you?"] [lit "Hi there"; lit "Fine."]).
Proof.
  refine (proj1 (transcript_follows_successful_sends (P := Scripted.service)
            (Scripted.active 3 [] two_replies) [] 3
            [lit "Hello"; lit "How are you?"] [lit "Hi there"; lit "Fine."]
            eq_refl eq_refl _ eq_refl)).
  repeat constructor.
Defined.

(** The first scenario of the specification: the first run starts a
    session, then "Hello" is answered "Hi there". *)
Example hello_scenario :
  chat_history
    (session (run_events [mkWidgets [] false false; send_widgets (lit "Hello")]
                (Scripted.fresh one_session_one_reply)))
  = Some [(lit "Hello", lit "Hi there")].
Proof. reflexivity. Qed.

(** ** The streamed exchange *)

(** Every display of the streaming loop is a non-empty prefix of the reply
    followed by the cursor, or the pause that follows it. *)
Lemma stream_ui_shows_prefixes (rest : str) : forall (displayed : str) (ev : ui),
  In ev (stream_ui displayed rest) ->
  ev = Time_sleep
  \/ exists shown later,
       rest = shown ++ later /\ shown <> []
       /\ ev = Placeholder_markdown (bot_prefix ++ (displayed ++ shown) ++ [cursor]).
Proof.
  induction rest as [|c rest IH]; intros displayed ev Hin; cbn [stream_ui] in Hin.
  - contradiction.
  - destruct Hin as [<- | [<- | Hin]].
    + right. exists [c], rest. repeat split. discriminate.
    + now left.
    + destruct (IH _ _ Hin) as [-> | (shown & later & -> & _ & ->)]; [now left|].
      right. exists (c :: shown), later. repeat split; [discriminate|].
      now rewrite <- (app_assoc displayed [c] shown).
Qed.

(** C8.  When the provider returns a reply, [chat_response_streaming]
    returns that reply, whole and unchanged: the same text the console
    script gets from its plain [send_message] and prints after "Bot: ".
    Both make the one provider call and leave the provider in the same
    state.  The streaming only shows things: each display of the loop is a
    non-empty prefix of the reply with a cursor, and the last display is the
    whole reply. *)
Theorem streaming_returns_whole_reply
    {Handle PState : Type} {P : Provider Handle PState}
    (wd : world Handle PState) (chat : Handle) (user_message text : str)
    (ps : PState) :
  send_message chat user_message (provider wd) = (Returned text, ps) ->
  chat_response_streaming (Some chat) user_message wd
  = (Ok text,
     mkWorld ps (calls wd ++ [CallSend chat user_message])
       (ui_log wd ++ stream_ui [] text ++ [Placeholder_markdown (bot_prefix ++ text)])
       (session wd))
  /\ (forall ev, In ev (stream_ui [] text) ->
        ev = Time_sleep
        \/ exists shown later,
             text = shown ++ later /\ shown <> []
             /\ ev = Placeholder_markdown (bot_prefix ++ shown ++ [cursor]))
  /\ (forall c : Cli.console Handle PState,
        Cli.provider c = provider wd ->
        Cli.send_and_print chat user_message c
        = (Returned text,
           Cli.mkConsole ps (Cli.calls c ++ [CallSend chat user_message])
             (Cli.stdout c ++ [Cli.Print (lit "Bot: " ++ text)]))).
Proof.
  intros Hsend. split; [|split].
  - rewrite chat_response_streaming_run, Hsend. reflexivity.
  - intros ev Hin. exact (stream_ui_shows_prefixes text [] ev Hin).
  - intros c Hc. unfold Cli.send_and_print. rewrite Hc, Hsend. reflexivity.
Qed.

Lemma streaming_returns_whole_reply_witness :
  fst (chat_response_streaming (Some 3) (lit "Hello")
         (Scripted.active 3 [] one_session_one_reply))
  = Ok (lit "Hi there")
  /\ fst (Cli.send_and_print 3 (lit "Hello")
            (Cli.mkConsole one_session_one_reply [] []))
     = Returned (lit "Hi there").
Proof.
  pose proof (streaming_returns_whole_reply (P := Scripted.service)
                (Scripted.active 3 [] one_session_one_reply) 3
                (lit "Hello") (lit "Hi there") (Scripted.mkScript [Returned 3] [])
                eq_refl) as (H1 & _ & H3).
  split.
  - exact (f_equal fst H1).
  - exact (f_equal fst (H3 (Cli.mkConsole one_session_one_reply [] []) eq_refl)).
Defined.

(** ** Exceptions of the exchange *)

Lemma starts_with_app (prefix s : str) : starts_with prefix (prefix ++ s) = true.
Proof.
  induction prefix as [|a prefix IH]; cbn [starts_with app]; [reflexivity|].
  now rewrite N.eqb_refl, IH.
Qed.

Lemma quiet_sound (ev : ui) (e : str) :
  quiet ev = true -> ev <> St_error ([cross_mark] ++ lit " Error: " ++ e).
Proof.
  intros Hq ->. unfold quiet in Hq.
  change ([cross_mark] ++ lit " Error: " ++ e) with (turn_error_prefix ++ e) in Hq.
  now rewrite starts_with_app in Hq.
Qed.

Lemma turns_ui_quiet (h : list (str * str)) : forallb quiet (turns_ui h) = true.
Proof. induction h as [|[u b] h IH]; cbn [turns_ui forallb quiet andb]; auto. Qed.

Lemma stream_ui_quiet (rest : str) : forall displayed,
  forallb quiet (stream_ui displayed rest) = true.
Proof. induction rest as [|c rest IH]; intros d; cbn [stream_ui forallb quiet andb]; auto. Qed.

Lemma history_ui_quiet (h : list (str * str)) : forallb quiet (history_ui h) = true.
Proof.
  destruct h as [|p h]; [reflexivity|].
  cbn [history_ui forallb quiet andb]. apply turns_ui_quiet.
Qed.

Lemma reply_ui_quiet (o : outcome str) : forallb quiet (reply_ui o) = true.
Proof.
  destruct o as [text|e]; cbn [reply_ui]; [|reflexivity].
  rewrite forallb_app, stream_ui_quiet. reflexivity.
Qed.

Section Handler.

Context {Handle PState : Type} {P : Provider Handle PState}.

Implicit Types (wd : world Handle PState) (w : widgets).

(** The run that finds the key [chat_history] but not [chat_session]. *)
Lemma main_missing_session w wd :
  chat_session (initialised (session wd)) = None ->
  main w wd
  = (Exc (lit "st.session_state has no attribute chat_session"),
     mkWorld (provider wd) (calls wd) (ui_log wd ++ heading_ui)
       (initialised (session wd))).
Proof.
  destruct wd as [ps cs log [h c t]].
  unfold initialised; cbn [session chat_history chat_session chat_message_input
                           provider calls ui_log].
  destruct h as [hist|]; [|discriminate]. cbn [chat_session]. intros ->.
  unfold main. do 2 step.
  unfold init_chat_history, has_chat_history. do 3 step. cbn [negb]. step.
  unfold init_chat_message_input, has_chat_message_input. do 3 step.
  destruct t as [t|]; cbn [negb]; unfold write_chat_message_input; repeat step.
  all: unfold init_chat_session, read_chat_session; repeat step.
  all: unfold heading_ui; now rewrite <- app_assoc.
Qed.

Lemma buttons_log w wd hist chat :
  chat_history (session wd) = Some hist ->
  chat_session (session wd) = Some (Some chat) ->
  exists evs,
    ui_log (snd (buttons w wd)) = ui_log wd ++ evs /\ forallb quiet evs = true.
Proof.
  intros Hh Hc.
  destruct (send_clicked w) eqn:Hs; [destruct (truthy (strip (user_message w))) eqn:Hm|].
  - rewrite (buttons_send w wd hist chat Hh Hc Hs Hm),
      (send_message_clicked_run _ wd hist chat Hh Hc Hm).
    eexists. split; [reflexivity|].
    cbn [forallb quiet andb]. apply reply_ui_quiet.
  - unfold buttons. rewrite Hs. unfold bind.
    rewrite (send_message_clicked_blank _ _ Hm).
    destruct (clear_clicked w); [rewrite clear_chat_clicked_run|];
      (eexists; split; [reflexivity|reflexivity]).
  - unfold buttons. rewrite Hs. unfold bind, ret.
    destruct (clear_clicked w); [rewrite clear_chat_clicked_run|];
      exists []; cbn; now rewrite app_nil_r.
Qed.

(** No run of [main] shows the error report of lines 212-213. *)
Lemma main_log w wd :
  exists evs,
    ui_log (snd (main w wd)) = ui_log wd ++ evs /\ forallb quiet evs = true.
Proof.
  destruct (chat_session (initialised (session wd))) as [[chat|]|] eqn:Hc.
  - destruct (chat_history (session wd)) as [hist|] eqn:Hh.
    + rewrite (initialised_session _ hist Hh) in Hc.
      rewrite (main_active w wd hist chat Hh Hc).
      set (wd' := mkWorld _ _ _ _).
      destruct (buttons_log w wd' hist chat) as (evs & -> & Hq).
      * now apply initialised_history.
      * subst wd'. cbn [session]. now rewrite (initialised_session _ hist Hh).
      * exists ((heading_ui ++ history_ui hist) ++ evs). subst wd'. cbn [ui_log].
        split; [now rewrite <- !app_assoc|].
        now rewrite !forallb_app, history_ui_quiet, Hq.
    + unfold initialised in Hc. rewrite Hh in Hc. discriminate.
  - rewrite (main_no_session w wd Hc).
    destruct (chats_create model_name (provider wd)) as [[chat|e] ps].
    + set (wd' := mkWorld _ _ _ _).
      destruct (buttons_log w wd' (shown_history (session wd)) chat) as (evs & -> & Hq).
      * subst wd'. unfold started, shown_history, initialised; cbn [session chat_history].
        now destruct (chat_history (session wd)).
      * reflexivity.
      * exists ((heading_ui
                   ++ [St_success ([check_mark] ++ lit " New chat session started!")]
                   ++ history_ui (shown_history (session wd))) ++ evs).
        subst wd'. cbn [ui_log]. split; [now rewrite <- !app_assoc|].
        now rewrite !forallb_app, history_ui_quiet, Hq.
    + eexists. cbn [snd ui_log]. split; reflexivity.
  - rewrite (main_missing_session w wd Hc). now exists heading_ui.
Qed.

End Handler.

(** C9.  [chat_response_streaming] catches what the exchange raises: it
    returns the text "Error: " followed by the message of the exception,
    and whatever the provider does it ends with a text, never with an
    exception.  The text for a failure is the one it returns when the
    provider replies with those very words.  So in no run of [main] does
    the handler of the surrounding [try] show its report. *)
Theorem chat_response_streaming_catches
    {Handle PState : Type} {P : Provider Handle PState} :
  (forall (wd : world Handle PState) (chat : Handle) (user_message e : str)
          (ps : PState),
      send_message chat user_message (provider wd) = (Raised e, ps) ->
      chat_response_streaming (Some chat) user_message wd
      = (Ok (lit "Error: " ++ e),
         mkWorld ps (calls wd ++ [CallSend chat user_message])
           (ui_log wd ++ [Placeholder_error (lit "Error: " ++ e)])
           (session wd)))
  /\
  (forall (wd : world Handle PState) (chat_session : option Handle)
          (user_message : str),
      exists text wd', chat_response_streaming chat_session user_message wd = (Ok text, wd'))
  /\
  (forall (wd1 wd2 : world Handle PState) (chat : Handle) (user_message e : str)
          (ps1 ps2 : PState),
      send_message chat user_message (provider wd1) = (Raised e, ps1) ->
      send_message chat user_message (provider wd2) = (Returned (lit "Error: " ++ e), ps2) ->
      fst (chat_response_streaming (Some chat) user_message wd1)
      = fst (chat_response_streaming (Some chat) user_message wd2))
  /\
  (forall (wd : world Handle PState) (w : widgets),
      exists evs,
        ui_log (snd (main w wd)) = ui_log wd ++ evs
        /\ forall e, ~ In (St_error ([cross_mark] ++ lit " Error: " ++ e)) evs).
Proof.
  split; [|split; [|split]].
  - intros wd chat m e ps He. rewrite chat_response_streaming_run, He. reflexivity.
  - intros wd [chat|] m.
    + rewrite chat_response_streaming_run. eauto.
    + rewrite chat_response_streaming_none. eauto.
  - intros wd1 wd2 chat m e ps1 ps2 H1 H2.
    rewrite !chat_response_streaming_run, H1, H2. reflexivity.
  - intros wd w. destruct (main_log w wd) as (evs & Hlog & Hq).
    exists evs. split; [exact Hlog|].
    intros e Hin. rewrite forallb_forall in Hq.
    exact (quiet_sound _ e (Hq _ Hin) eq_refl).
Qed.

Lemma chat_response_streaming_catches_witness :
  fst (chat_response_streaming (Some 0) (lit "ping") ping_fails)
  = Ok (lit "Error: " ++ lit "network failure")
  /\ fst (chat_response_streaming (Some 0) (lit "ping") ping_fails)
     = fst (chat_response_streaming (Some 0) (lit "ping") (Scripted.active 0 [] says_error)).
Proof.
  split.
  - exact (f_equal fst
      (proj1 (chat_response_streaming_catches (P := Scripted.service))
         ping_fails 0 (lit "ping") (lit "network failure")
         (Scripted.mkScript [] []) eq_refl)).
  - exact (proj1 (proj2 (proj2 (chat_response_streaming_catches (P := Scripted.service))))
         ping_fails (Scripted.active 0 [] says_error) 0 (lit "ping")
         (lit "network failure") (Scripted.mkScript [] []) (Scripted.mkScript [] [])
         eq_refl eq_refl).
Defined.

(** * Further properties of the Streamlit conversation *)

Section Shape.

Context {Handle PState : Type} {P : Provider Handle PState}.

Implicit Types (wd : world Handle PState) (w : widgets).

(** What the two buttons do on a session with a chat object. *)
Lemma buttons_cases w wd hist chat :
  chat_history (session wd) = Some hist ->
  chat_session (session wd) = Some (Some chat) ->
  buttons w wd
  = if send_clicked w && truthy (strip (user_message w))
    then send_message_clicked (user_message w) wd
    else
      let log :=
        ui_log wd
          ++ (if send_clicked w
              then [St_warning (warning_sign ++ lit " Please enter a message first!")]
              else []) in
      if clear_clicked w
      then (RerunScript, mkWorld (provider wd) (calls wd) log cleared)
      else (Ok tt, mkWorld (provider wd) (calls wd) log (session wd)).
Proof.
  intros Hh Hc.
  destruct (send_clicked w) eqn:Hs; cbn [andb].
  - destruct (truthy (strip (user_message w))) eqn:Hm.
    + apply (buttons_send w wd hist chat Hh Hc Hs Hm).
    + unfold buttons. rewrite Hs. unfold bind.
      rewrite (send_message_clicked_blank _ _ Hm).
      destruct (clear_clicked w); [now rewrite clear_chat_clicked_run | reflexivity].
  - unfold buttons. rewrite Hs. unfold bind, ret. cbn zeta. rewrite app_nil_r.
    destruct (clear_clicked w); [now rewrite clear_chat_clicked_run | now destruct wd].
Qed.

(** The three ways a run of [main] goes: the key [chat_session] is
    missing, the creation of the session is refused, or the buttons are
    reached on a session with a chat object, stored before or just
    created. *)
Lemma main_shape w wd :
  (chat_session (initialised (session wd)) = None
   /\ main w wd
      = (Exc (lit "st.session_state has no attribute chat_session"),
         mkWorld (provider wd) (calls wd) (ui_log wd ++ heading_ui)
           (initialised (session wd))))
  \/ (chat_session (initialised (session wd)) = Some None
      /\ exists e ps,
           chats_create model_name (provider wd) = (Raised e, ps)
           /\ main w wd
              = (StopScript,
                 mkWorld ps (calls wd ++ [CallCreate model_name])
                   (ui_log wd ++ heading_ui
                      ++ [St_error ([cross_mark] ++ lit " Error creating chat session: " ++ e)])
                   (initialised (session wd))))
  \/ (exists chat wd',
        main w wd = buttons w wd'
        /\ chat_history (session wd') = Some (shown_history (session wd))
        /\ chat_session (session wd') = Some (Some chat)
        /\ chat_message_input (session wd') = chat_message_input (initialised (session wd))
        /\ ((chat_session (initialised (session wd)) = Some (Some chat)
             /\ calls wd' = calls wd /\ provider wd' = provider wd)
            \/ (chat_session (initialised (session wd)) = Some None
                /\ calls wd' = calls wd ++ [CallCreate model_name]
                /\ chats_create model_name (provider wd) = (Returned chat, provider wd')))).
Proof.
  destruct (chat_session (initialised (session wd))) as [[chat|]|] eqn:Hc.
  - right. right.
    destruct (chat_history (session wd)) as [hist|] eqn:Hh.
    + assert (Hc' := Hc). rewrite (initialised_session _ hist Hh) in Hc'.
      exists chat. eexists. split; [apply (main_active w wd hist chat Hh Hc')|].
      cbn [session provider calls]. unfold shown_history.
      rewrite (initialised_history _ hist Hh). repeat split; auto.
    + unfold initialised in Hc. rewrite Hh in Hc. discriminate.
  - right. rewrite (main_no_session w wd Hc).
    destruct (chats_create model_name (provider wd)) as [[chat|e] ps] eqn:Hcr.
    + right. exists chat. eexists. split; [reflexivity|].
      cbn [session provider calls]. unfold started, shown_history.
      cbn [chat_history chat_session chat_message_input].
      split; [unfold initialised; now destruct (chat_history (session wd))|].
      repeat split. right. repeat split.
    + left. split; [reflexivity|]. now exists e, ps.
  - left. split; [reflexivity|]. apply (main_missing_session w wd Hc).
Qed.

End Shape.

Lemma initialised_shown {Handle : Type} (s : session_state Handle) :
  chat_history (initialised s) = Some (shown_history s).
Proof. unfold shown_history, initialised. now destruct (chat_history s). Qed.

(** X1.  Whatever the session state and the widgets, a run of [main]
    never rewrites a recorded turn: the history after the run is the one
    displayed, or that one followed by a single pair for the message just
    sent (and then "Send Message" was clicked and the run ends in
    [st.rerun()]), or it is empty because "Clear Chat" was clicked. *)
Theorem main_keeps_recorded_turns
    {Handle PState : Type} {P : Provider Handle PState}
    (wd : world Handle PState) (w : widgets) :
  chat_history (session (snd (main w wd))) = Some (shown_history (session wd))
  \/ (exists reply,
        chat_history (session (snd (main w wd)))
        = Some (shown_history (session wd) ++ [(user_message w, reply)])
        /\ send_clicked w = true
        /\ fst (main w wd) = RerunScript)
  \/ (chat_history (session (snd (main w wd))) = Some []
      /\ clear_clicked w = true).
Proof.
  destruct (main_shape w wd)
    as [[_ ->] | [(_ & e & ps & _ & ->) | (chat & wd' & -> & Hh & Hc & _)]].
  - left. apply initialised_shown.
  - left. apply initialised_shown.
  - rewrite (buttons_cases w wd' _ chat Hh Hc).
    destruct (send_clicked w) eqn:Hs; cbn [andb].
    + destruct (truthy (strip (user_message w))) eqn:Hm.
      * right. left.
        rewrite (send_message_clicked_run _ wd' _ chat Hh Hc Hm).
        eexists. repeat split.
      * destruct (clear_clicked w); cbn [snd session chat_history];
          [right; right; now split | now left].
    + destruct (clear_clicked w); cbn [snd session chat_history];
        [right; right; now split | now left].
Qed.

(** X2.  In one run [main] contacts the provider at most twice and in this
    order: one creation, only when no chat object is stored, then one
    exchange, only when "Send Message" was clicked on a message that is not
    blank; the message sent is the text of the input box as it is. *)
Theorem main_provider_calls
    {Handle PState : Type} {P : Provider Handle PState}
    (wd : world Handle PState) (w : widgets) :
  exists creations sends,
    calls (snd (main w wd)) = calls wd ++ creations ++ sends
    /\ (creations = []
        \/ (creations = [CallCreate model_name]
            /\ chat_session (initialised (session wd)) = Some None))
    /\ (sends = []
        \/ (exists chat,
              sends = [CallSend chat (user_message w)]
              /\ send_clicked w = true
              /\ truthy (strip (user_message w)) = true)).
Proof.
  destruct (main_shape w wd)
    as [[_ ->] | [(Hn & e & ps & _ & ->) | (chat & wd' & -> & Hh & Hc & _ & Hcalls)]].
  - exists [], []. cbn. rewrite app_nil_r. auto.
  - exists [CallCreate model_name], []. cbn [snd calls]. auto.
  - assert (Hcr : exists creations,
               calls wd' = calls wd ++ creations
               /\ (creations = []
                   \/ (creations = [CallCreate model_name]
                       /\ chat_session (initialised (session wd)) = Some None))).
    { destruct Hcalls as [(_ & -> & _) | (Hn & -> & _)].
      - exists []. rewrite app_nil_r. auto.
      - exists [CallCreate model_name]. auto. }
    destruct Hcr as (creations & Hcs & Hcre).
    exists creations.
    rewrite (buttons_cases w wd' _ chat Hh Hc).
    destruct (send_clicked w) eqn:Hs; cbn [andb].
    + destruct (truthy (strip (user_message w))) eqn:Hm.
      * exists [CallSend chat (user_message w)].
        rewrite (send_message_clicked_run _ wd' _ chat Hh Hc Hm).
        cbn [snd calls]. rewrite Hcs, <- app_assoc.
        repeat split; [assumption|]. right. now exists chat.
      * exists []. destruct (clear_clicked w); cbn [snd calls];
          rewrite Hcs, app_nil_r; auto.
    + exists []. destruct (clear_clicked w); cbn [snd calls];
        rewrite Hcs, app_nil_r; auto.
Qed.

(** X3.  Handling a user action always settles: the run that follows
    [st.rerun()] has no button clicked and never asks for another rerun. *)
Theorem handle_event_settles
    {Handle PState : Type} {P : Provider Handle PState}
    (wd : world Handle PState) (w : widgets) :
  fst (handle_event w wd) <> RerunScript.
Proof.
  assert (Hquiet : forall wd0 : world Handle PState,
             fst (main (no_click w) wd0) <> RerunScript).
  { intros wd0.
    destruct (main_shape (no_click w) wd0)
      as [[_ ->] | [(_ & e & ps & _ & ->) | (chat & wd' & -> & _)]];
      [discriminate | discriminate | now rewrite buttons_no_click]. }
  unfold handle_event.
  destruct (main w wd) as [[[]|e| |] wd1] eqn:Hrun; cbn [fst]; try discriminate.
  apply Hquiet.
Qed.

Lemma handle_event_settles_witness :
  fst (handle_event clear_widgets (Scripted.active 3 two_turns one_session_one_reply))
  <> RerunScript.
Proof.
  exact (handle_event_settles (P := Scripted.service)
           (Scripted.active 3 two_turns one_session_one_reply) clear_widgets).
Defined.

(** X4.  "Clear Chat" on an active session, handled to its end: the run
    that follows [st.rerun()] asks the provider for a new session.  If the
    provider creates one, the state is the new chat object with an empty
    history, and the next message sent goes to the new chat object and
    makes the history that one turn; if the provider refuses, the run
    stops with no chat object and an empty history. *)
Theorem clear_then_rerun
    {Handle PState : Type} {P : Provider Handle PState}
    (wd : world Handle PState) (w : widgets)
    (hist : list (str * str)) (chat : Handle) :
  chat_history (session wd) = Some hist ->
  chat_session (session wd) = Some (Some chat) ->
  clear_clicked w = true ->
  send_clicked w = false \/ truthy (strip (user_message w)) = false ->
  match chats_create model_name (provider wd) with
  | (Returned fresh, ps) =>
      fst (handle_event w wd) = Ok tt
      /\ session (snd (handle_event w wd))
         = mkSession (Some []) (Some (Some fresh)) (Some [])
      /\ calls (snd (handle_event w wd)) = calls wd ++ [CallCreate model_name]
      /\ provider (snd (handle_event w wd)) = ps
      /\ forall w2,
           send_clicked w2 = true ->
           truthy (strip (user_message w2)) = true ->
           chat_history (session (snd (handle_event w2 (snd (handle_event w wd)))))
           = Some [(user_message w2,
                    reply_text (fst (send_message fresh (user_message w2) ps)))]
           /\ calls (snd (handle_event w2 (snd (handle_event w wd))))
              = calls wd ++ [CallCreate model_name; CallSend fresh (user_message w2)]
  | (Raised e, ps) =>
      fst (handle_event w wd) = StopScript
      /\ session (snd (handle_event w wd)) = mkSession (Some []) (Some None) (Some [])
      /\ calls (snd (handle_event w wd)) = calls wd ++ [CallCreate model_name]
  end.
Proof.
  intros Hh Hc Hcl Hsend.
  assert (Hrun : exists log,
             main w wd = (RerunScript, mkWorld (provider wd) (calls wd) log cleared)).
  { rewrite (main_active w wd hist chat Hh Hc).
    erewrite buttons_cases;
      [| cbn [session]; apply (initialised_history _ hist Hh)
       | cbn [session]; rewrite (initialised_session _ hist Hh); exact Hc].
    rewrite Hcl.
    destruct Hsend as [-> | ->]; [|rewrite andb_false_r]; cbn [andb];
      eexists; reflexivity. }
  destruct Hrun as [log Hrun].
  assert (Hev : handle_event w wd
                = match chats_create model_name (provider wd) with
                  | (Returned fresh, ps) =>
                      (Ok tt,
                       mkWorld ps (calls wd ++ [CallCreate model_name])
                         (log ++ heading_ui
                            ++ [St_success ([check_mark] ++ lit " New chat session started!")]
                            ++ history_ui (shown_history (cleared (Handle := Handle))))
                         (started cleared fresh))
                  | (Raised e, ps) =>
                      (StopScript,
                       mkWorld ps (calls wd ++ [CallCreate model_name])
                         (log ++ heading_ui
                            ++ [St_error ([cross_mark]
                                            ++ lit " Error creating chat session: " ++ e)])
                         (initialised cleared))
                  end).
  { unfold handle_event. rewrite Hrun.
    rewrite main_no_session by reflexivity. cbn [provider calls ui_log session].
    destruct (chats_create model_name (provider wd)) as [[fresh|e] ps];
      [now rewrite buttons_no_click | reflexivity]. }
  rewrite Hev.
  destruct (chats_create model_name (provider wd)) as [[fresh|e] ps].
  - cbn [fst snd provider calls session].
    do 4 (split; [reflexivity|]).
    intros w2 Hs2 Hm2.
    destruct (handle_event_send w2
                (mkWorld ps (calls wd ++ [CallCreate model_name])
                   (log ++ heading_ui
                      ++ [St_success ([check_mark] ++ lit " New chat session started!")]
                      ++ history_ui (shown_history (cleared (Handle := Handle))))
                   (started cleared fresh))
                [] fresh eq_refl eq_refl Hs2 Hm2) as (_ & Hs & Hcs & _).
    rewrite Hs, Hcs. cbn [chat_history calls provider app].
    now rewrite <- app_assoc.
  - repeat split.
Qed.

Lemma clear_then_rerun_witness :
  session (snd (handle_event clear_widgets
                  (Scripted.active 3 two_turns one_session_one_reply)))
  = mkSession (Some []) (Some (Some 3)) (Some []).
Proof.
  exact (proj1 (proj2
    (clear_then_rerun (P := Scripted.service)
       (Scripted.active 3 two_turns one_session_one_reply) clear_widgets
       two_turns 3 eq_refl eq_refl eq_refl (or_introl eq_refl)))).
Defined.

Lemma turns_ui_length (h : list (str * str)) :
  List.length (turns_ui h) = 3 * List.length h.
Proof.
  induction h as [|[u b] h IH]; cbn [turns_ui List.length]; [reflexivity|].
  rewrite IH. lia.
Qed.

Lemma turns_ui_nth (h : list (str * str)) : forall i u b,
  nth_error h i = Some (u, b) ->
  nth_error (turns_ui h) (3 * i) = Some (St_markdown (lit "**You:** " ++ u))
  /\ nth_error (turns_ui h) (3 * i + 1) = Some (St_markdown (bot_prefix ++ b))
  /\ nth_error (turns_ui h) (3 * i + 2) = Some (St_markdown (lit "---")).
Proof.
  induction h as [|[u0 b0] h IH]; intros [|i] u b Hn; cbn [nth_error] in Hn;
    try discriminate.
  - injection Hn as -> ->. repeat split.
  - destruct (IH i u b Hn) as (H0 & H1 & H2).
    replace (3 * S i) with (S (S (S (3 * i)))) by lia.
    cbn [turns_ui nth_error Nat.add]. auto.
Qed.

(** X5.  A run with no button clicked on an active session only displays:
    it ends normally, calls nothing, leaves the provider and an initialised
    session state as they are, and shows, after the two heading lines and
    the title of the history, three lines for each recorded turn, in the
    order of the history: "You: ...", "Bot: ...", "---".  With an empty
    history only the heading is shown. *)
Theorem viewing_changes_nothing
    {Handle PState : Type} {P : Provider Handle PState}
    (wd : world Handle PState) (w : widgets)
    (hist : list (str * str)) (chat : Handle) (input : str) :
  session wd = mkSession (Some hist) (Some (Some chat)) (Some input) ->
  send_clicked w = false ->
  clear_clicked w = false ->
  main w wd
  = (Ok tt,
     mkWorld (provider wd) (calls wd)
       (ui_log wd ++ heading_ui ++ history_ui hist) (session wd))
  /\ (hist = [] -> history_ui hist = [])
  /\ (hist <> [] ->
      history_ui hist
      = St_markdown (lit "### " ++ [speech_balloon] ++ lit " Chat History:")
          :: turns_ui hist)
  /\ List.length (turns_ui hist) = 3 * List.length hist
  /\ (forall i u b,
        nth_error hist i = Some (u, b) ->
        nth_error (turns_ui hist) (3 * i) = Some (St_markdown (lit "**You:** " ++ u))
        /\ nth_error (turns_ui hist) (3 * i + 1) = Some (St_markdown (bot_prefix ++ b))
        /\ nth_error (turns_ui hist) (3 * i + 2) = Some (St_markdown (lit "---"))).
Proof.
  intros Hs Hsend Hclear.
  split; [|split; [|split; [|split]]].
  - rewrite (main_active w wd hist chat) by (rewrite Hs; reflexivity).
    erewrite buttons_cases;
      [| cbn [session]; rewrite Hs; reflexivity | cbn [session]; rewrite Hs; reflexivity].
    rewrite Hsend, Hclear. cbn [andb provider calls ui_log session].
    rewrite app_nil_r, Hs. reflexivity.
  - now intros ->.
  - destruct hist; [congruence | reflexivity].
  - apply turns_ui_length.
  - apply turns_ui_nth.
Qed.

Lemma viewing_changes_nothing_witness :
  session (snd (main (mkWidgets [] false false)
                  (Scripted.active 3 two_turns one_session_one_reply)))
  = session (Scripted.active 3 two_turns one_session_one_reply).
Proof.
  exact (f_equal (fun r => session (snd r))
    (proj1 (viewing_changes_nothing (P := Scripted.service)
       (Scripted.active 3 two_turns one_session_one_reply)
       (mkWidgets [] false false) two_turns 3 [] eq_refl eq_refl eq_refl))).
Defined.

Lemma truthy_strip (s : str) :
  truthy (strip s) = existsb (fun c => negb (isspace c)) s.
Proof.
  destruct (truthy (strip s)) eqn:Ht.
  - symmetry. destruct (existsb (fun c => negb (isspace c)) s) eqn:He; [reflexivity|].
    assert (Hall : forallb isspace s = true).
    { apply forallb_forall. intros c Hin.
      destruct (isspace c) eqn:Hc; [reflexivity|].
      assert (existsb (fun c => negb (isspace c)) s = true)
        by (apply existsb_exists; exists c; now rewrite Hc).
      congruence. }
    apply strip_blank in Hall. congruence.
  - apply strip_blank in Ht. symmetry.
    destruct (existsb (fun c => negb (isspace c)) s) eqn:He; [|reflexivity].
    apply existsb_exists in He. destruct He as (c & Hin & Hc).
    rewrite forallb_forall in Ht. rewrite (Ht c Hin) in Hc. discriminate.
Qed.

(** X6.  On an active session "Send Message" reaches the provider exactly
    when the text of the input box has a character that is not white
    space; the text is then sent and recorded as it was typed, white space
    around it included.  Otherwise nothing is sent and the history is
    kept. *)
Theorem send_needs_visible_character
    {Handle PState : Type} {P : Provider Handle PState}
    (wd : world Handle PState) (w : widgets)
    (hist : list (str * str)) (chat : Handle) :
  chat_history (session wd) = Some hist ->
  chat_session (session wd) = Some (Some chat) ->
  send_clicked w = true ->
  clear_clicked w = false ->
  if existsb (fun c => negb (isspace c)) (user_message w)
  then calls (snd (main w wd)) = calls wd ++ [CallSend chat (user_message w)]
       /\ exists reply,
            chat_history (session (snd (main w wd)))
            = Some (hist ++ [(user_message w, reply)])
  else calls (snd (main w wd)) = calls wd
       /\ chat_history (session (snd (main w wd))) = Some hist.
Proof.
  intros Hh Hc Hs Hcl. rewrite <- truthy_strip.
  destruct (truthy (strip (user_message w))) eqn:Hm.
  - rewrite (main_send w wd hist chat Hh Hc Hs Hm). cbn [snd calls session chat_history].
    split; [reflexivity | eexists; reflexivity].
  - rewrite (main_blank w wd hist chat Hh Hc Hs Hcl Hm).
    cbn [snd calls session]. split; [reflexivity | now apply initialised_history].
Qed.

Lemma send_needs_visible_character_witness :
  calls (snd (main (send_widgets padded_hello)
                (Scripted.active 3 [] one_session_one_reply)))
  = [] ++ [CallSend 3 padded_hello]
  /\ calls (snd (main (send_widgets spaces)
                   (Scripted.active 3 [] one_session_one_reply))) = [].
Proof.
  split.
  - exact (proj1 (send_needs_visible_character (P := Scripted.service)
            (Scripted.active 3 [] one_session_one_reply) (send_widgets padded_hello)
            [] 3 eq_refl eq_refl eq_refl eq_refl)).
  - exact (proj1 (send_needs_visible_character (P := Scripted.service)
            (Scripted.active 3 [] one_session_one_reply) (send_widgets spaces)
            [] 3 eq_refl eq_refl eq_refl eq_refl)).
Defined.

(** * Further properties of the console conversation *)

Section ConsoleLoop.

Context {Handle PState : Type} {P : Provider Handle PState}.

Implicit Types (c : Cli.console Handle PState).

Lemma conversation_loop_command chat cmd rest c :
  leaves cmd = true ->
  Cli.conversation_loop chat (cmd :: rest) c
  = (Returned tt, rest,
     Cli.mkConsole (Cli.provider c) (Cli.calls c)
       ((Cli.stdout c ++ [Cli.Prompt (lit "You: ")])
          ++ [Cli.Print (lit "Ending chat session.")])).
Proof.
  intros Hl. unfold leaves in Hl. cbn [Cli.conversation_loop]. now rewrite Hl.
Qed.

(** The lines the loop reads before it ends are sent as they are and in
    order, and nothing else is sent; the loop ends on a command, which is
    read and not sent, or with an exception, and then every line read was
    sent. *)
Lemma conversation_loop_sent chat stdin : forall c,
  exists sent,
    Cli.calls (snd (Cli.conversation_loop chat stdin c))
    = Cli.calls c ++ map (CallSend chat) sent
    /\ Forall (fun line => leaves line = false) sent
    /\ ((exists cmd,
           leaves cmd = true
           /\ stdin = sent ++ cmd :: snd (fst (Cli.conversation_loop chat stdin c))
           /\ fst (fst (Cli.conversation_loop chat stdin c)) = Returned tt)
        \/ (stdin = sent ++ snd (fst (Cli.conversation_loop chat stdin c))
            /\ exists e, fst (fst (Cli.conversation_loop chat stdin c)) = Raised e)).
Proof.
  induction stdin as [|line rest IH]; intros c.
  - exists []. cbn. rewrite app_nil_r. repeat split; [constructor|].
    right. split; [reflexivity | eexists; reflexivity].
  - destruct (leaves line) eqn:Hl.
    + exists []. rewrite (conversation_loop_command chat line rest c Hl).
      cbn. rewrite app_nil_r. repeat split; [constructor|].
      left. now exists line.
    + rewrite (conversation_loop_line chat line rest c Hl).
      destruct (send_message chat line (Cli.provider c)) as [[text|e] ps].
      * destruct (IH (Cli.mkConsole ps (Cli.calls c ++ [CallSend chat line])
                        ((Cli.stdout c ++ [Cli.Prompt (lit "You: ")])
                           ++ [Cli.Print (lit "Bot: " ++ text)])))
          as (sent & Hcalls & Hall & Hend).
        exists (line :: sent). rewrite Hcalls. cbn [Cli.calls map].
        rewrite <- app_assoc. split; [reflexivity|]. split; [now constructor|].
        destruct Hend as [(cmd & Hcmd & Hin & Hr) | (Hin & e & Hr)].
        -- left. exists cmd. repeat split; [assumption| |assumption].
           cbn [app]. now f_equal.
        -- right. split; [cbn [app]; now f_equal | now exists e].
      * exists [line]. cbn. repeat split; [now repeat constructor|].
        right. split; [reflexivity | now exists e].
Qed.

End ConsoleLoop.

(** X7.  The console conversation reads its input from the front and sends
    what it reads: the lines left are a suffix of the input; when the
    session cannot be created no line is read and only the creation is
    asked of the provider; otherwise the provider is sent, after the
    creation, each line read, as typed and in order, except a final "exit"
    or "quit" (in any letter case), which is read and not sent. *)
Theorem console_sends_what_it_reads
    {Handle PState : Type} {P : Provider Handle PState}
    (stdin : list str) (c : Cli.console Handle PState) :
  exists consumed,
    stdin = consumed ++ fst (Cli.start_chat_conversation stdin c)
    /\ match chats_create model_name (Cli.provider c) with
       | (Raised e, _) =>
           consumed = []
           /\ Cli.calls (snd (Cli.start_chat_conversation stdin c))
              = Cli.calls c ++ [CallCreate model_name]
       | (Returned chat, _) =>
           exists sent,
             Cli.calls (snd (Cli.start_chat_conversation stdin c))
             = Cli.calls c ++ CallCreate model_name :: map (CallSend chat) sent
             /\ Forall (fun line => leaves line = false) sent
             /\ (consumed = sent
                 \/ exists cmd, leaves cmd = true /\ consumed = sent ++ [cmd])
       end.
Proof.
  unfold Cli.start_chat_conversation.
  cbn [Cli.print Cli.provider Cli.calls Cli.stdout].
  destruct (chats_create model_name (Cli.provider c)) as [[chat|e] ps].
  - match goal with
    | |- context [Cli.conversation_loop chat stdin ?c0] =>
        destruct (conversation_loop_sent chat stdin c0) as (sent & Hcalls & Hall & Hend);
        destruct (Cli.conversation_loop chat stdin c0) as [[o rest] c4]
    end.
    cbn [fst snd Cli.calls] in *.
    destruct Hend as [(cmd & Hcmd & Hin & ->) | (Hin & e & ->)];
      cbn [fst snd Cli.print Cli.calls].
    + exists (sent ++ [cmd]). split; [now rewrite <- app_assoc|].
      exists sent. rewrite Hcalls, <- app_assoc. repeat split; [assumption|].
      right. now exists cmd.
    + exists sent. split; [assumption|].
      exists sent. rewrite Hcalls, <- app_assoc. repeat split; [assumption|].
      now left.
  - exists []. cbn. repeat split.
Qed.

Lemma conversation_loop_answered
    {Handle PState : Type} {P : Provider Handle PState}
    (chat : Handle) (lines : list str) :
  forall (replies : list str) (tail : list str) (c : Cli.console Handle PState),
    Forall (fun line => leaves line = false) lines ->
    exchanges chat lines (Cli.provider c) = map Returned replies ->
    Cli.conversation_loop chat (lines ++ tail) c
    = Cli.conversation_loop chat tail
        (Cli.mkConsole (provider_after chat lines (Cli.provider c))
           (Cli.calls c ++ map (CallSend chat) lines)
           (Cli.stdout c ++ dialogue (combine lines replies))).
Proof.
  induction lines as [|line lines IH]; intros replies tail c Hall Hex.
  - cbn. rewrite !app_nil_r. now destruct c.
  - inversion Hall as [|? ? Hl Hrest]; subst.
    destruct replies as [|reply replies]; [discriminate Hex|].
    cbn [exchanges map] in Hex. injection Hex as Hfst Hex.
    cbn [app]. rewrite (conversation_loop_line chat line _ c Hl).
    destruct (send_message chat line (Cli.provider c)) as [o ps] eqn:Hsend.
    cbn [fst snd] in Hfst, Hex. subst o.
    rewrite (IH replies tail _ Hrest) by exact Hex.
    cbn [Cli.provider Cli.calls Cli.stdout provider_after map combine dialogue].
    rewrite Hsend. cbn [snd]. rewrite <- !app_assoc. cbn [app]. reflexivity.
Qed.

(** X8.  A console conversation in which every line is answered shows the
    two banner lines and then, for each line in order, the prompt "You: "
    and the reply after "Bot: ".  If the next line is "exit" or "quit" (in
    any letter case) it then shows "Ending chat session." and the lines
    after the command are left unread; if instead the input ends there, the
    end of input is reported as an error of the chat session. *)
Theorem console_conversation_transcript
    {Handle PState : Type} {P : Provider Handle PState}
    (c : Cli.console Handle PState) (chat : Handle)
    (lines replies : list str) (ps : PState) :
  chats_create model_name (Cli.provider c) = (Returned chat, ps) ->
  Forall (fun line => leaves line = false) lines ->
  exchanges chat lines ps = map Returned replies ->
  (forall cmd rest,
      leaves cmd = true ->
      Cli.start_chat_conversation (lines ++ cmd :: rest) c
      = (rest,
         Cli.mkConsole (provider_after chat lines ps)
           (Cli.calls c ++ CallCreate model_name :: map (CallSend chat) lines)
           (Cli.stdout c ++ banner ++ dialogue (combine lines replies)
              ++ [Cli.Prompt (lit "You: "); Cli.Print (lit "Ending chat session.")])))
  /\ Cli.start_chat_conversation lines c
     = ([],
        Cli.mkConsole (provider_after chat lines ps)
          (Cli.calls c ++ CallCreate model_name :: map (CallSend chat) lines)
          (Cli.stdout c ++ banner ++ dialogue (combine lines replies)
             ++ [Cli.Prompt (lit "You: ");
                 Cli.Print (lit "An error occurred during the chat session: "
                              ++ lit "EOF when reading a line")])).
Proof.
  intros Hcr Hall Hex. split.
  - intros cmd rest Hcmd.
    unfold Cli.start_chat_conversation.
    cbn [Cli.print Cli.provider Cli.calls Cli.stdout]. rewrite Hcr.
    rewrite (conversation_loop_answered chat lines replies (cmd :: rest) _ Hall)
      by exact Hex.
    rewrite (conversation_loop_command chat cmd rest _ Hcmd).
    cbn [Cli.provider Cli.calls Cli.stdout]. unfold banner.
    rewrite <- !app_assoc. cbn [app]. reflexivity.
  - unfold Cli.start_chat_conversation.
    cbn [Cli.print Cli.provider Cli.calls Cli.stdout]. rewrite Hcr.
    rewrite <- (app_nil_r lines) at 1.
    rewrite (conversation_loop_answered chat lines replies [] _ Hall)
      by exact Hex.
    cbn [Cli.conversation_loop]. unfold Cli.print, Cli.prompt.
    cbn [Cli.provider Cli.calls Cli.stdout].
    unfold banner. rewrite <- !app_assoc. cbn [app]. reflexivity.
Qed.

Lemma console_conversation_transcript_witness :
  fst (Cli.start_chat_conversation
         ([lit "Hello"; lit "How are you?"] ++ lit "QUIT" :: [lit "2"])
         two_replies_console)
  = [lit "2"].
Proof.
  refine (f_equal fst
    (proj1 (console_conversation_transcript (P := Scripted.service)
       two_replies_console 3 [lit "Hello"; lit "How are you?"]
       [lit "Hi there"; lit "Fine."] two_replies
       eq_refl _ eq_refl)
       (lit "QUIT") [lit "2"] eq_refl)).
  repeat constructor.
Defined.

(** * The other pages of the Streamlit application *)

Section PageRuns.

Context {File Image PState : Type}
        {G : Generator Image PState} {U : Upload File Image}.

Implicit Types (p : Pages.page Image PState).

Lemma type_out_run rest : forall displayed p,
  Pages.type_out displayed rest p
  = (Ok (displayed ++ rest),
     Pages.mkPage (Pages.service p) (Pages.requests p)
       (Pages.shown p ++ typing displayed rest)).
Proof.
  induction rest as [|c rest IH]; intros displayed [s rq sh];
    cbn [Pages.type_out typing].
  - unfold Run.ret. cbn. now rewrite !app_nil_r.
  - do 2 run_step. rewrite IH. cbn [Pages.service Pages.requests Pages.shown].
    now rewrite <- !app_assoc.
Qed.

Lemma get_text_response_streaming_run user_input p :
  Pages.get_text_response_streaming user_input p
  = (Ok (reply_text (fst (generate_content model_name (Text user_input) (Pages.service p)))),
     Pages.mkPage
       (snd (generate_content model_name (Text user_input) (Pages.service p)))
       (Pages.requests p ++ [(model_name, Text user_input)])
       (Pages.shown p
          ++ typed_reply (fst (generate_content model_name (Text user_input) (Pages.service p))))).
Proof.
  destruct p as [s rq sh].
  unfold Pages.get_text_response_streaming, Run.try_except, Pages.call_generate_content.
  run_step.
  destruct (generate_content model_name (Text user_input) s) as [[text|e] s'];
    cbn [fst snd reply_text typed_reply].
  - run_step. rewrite type_out_run. cbn [app]. run_step.
    now rewrite <- app_assoc.
  - run_step. reflexivity.
Qed.

Lemma analyze_image_run image prompt p :
  Pages.analyze_image image prompt p
  = (Ok (reply_text (fst (generate_content Pages.vision_model
                            (TextAndImage prompt image) (Pages.service p)))),
     Pages.mkPage
       (snd (generate_content Pages.vision_model (TextAndImage prompt image)
               (Pages.service p)))
       (Pages.requests p ++ [(Pages.vision_model, TextAndImage prompt image)])
       (Pages.shown p)).
Proof.
  destruct p as [s rq sh].
  unfold Pages.analyze_image, Run.try_except, Pages.call_generate_content.
  cbn [Pages.service Pages.requests Pages.shown].
  now destruct (generate_content Pages.vision_model (TextAndImage prompt image) s)
    as [[text|e] s'].
Qed.

Lemma typing_length rest : forall displayed,
  List.length (typing (Image := Image) displayed rest) = 2 * List.length rest.
Proof.
  induction rest as [|c rest IH]; intros d; cbn [typing List.length]; [reflexivity|].
  rewrite IH. lia.
Qed.

Lemma typing_nth rest : forall displayed i,
  i < List.length rest ->
  nth_error (typing (Image := Image) displayed rest) (2 * i)
  = Some (Pages.Ui (Placeholder_markdown ((displayed ++ firstn (S i) rest) ++ [cursor])))
  /\ nth_error (typing (Image := Image) displayed rest) (2 * i + 1)
     = Some (Pages.Ui Time_sleep).
Proof.
  induction rest as [|c rest IH]; intros d i Hi; cbn [List.length] in Hi; [lia|].
  destruct i as [|i].
  - cbn. auto.
  - replace (2 * S i) with (S (S (2 * i))) by lia.
    cbn [typing nth_error Nat.add].
    destruct (IH (d ++ [c]) i ltac:(lia)) as [H0 H1].
    rewrite H0, H1. cbn [firstn]. rewrite <- (app_assoc d [c]). auto.
Qed.

End PageRuns.

(** X9.  When the request returns a text, [get_text_response_streaming]
    returns that text unchanged after one request whose contents are the
    prompt as typed.  Its typing effect shows, for a text of [n]
    characters, [n] displays each followed by a pause: the [i]-th display
    is the first [i] characters followed by the cursor, in growing order;
    the last thing shown is the whole text without cursor. *)
Theorem typing_effect_shows_prefixes
    {Image PState : Type} {G : Generator Image PState}
    (p : Pages.page Image PState) (user_input text : str) (s : PState) :
  generate_content model_name (Text user_input) (Pages.service p) = (Returned text, s) ->
  Pages.get_text_response_streaming user_input p
  = (Ok text,
     Pages.mkPage s (Pages.requests p ++ [(model_name, Text user_input)])
       (Pages.shown p ++ typing [] text ++ [Pages.Ui (Placeholder_markdown text)]))
  /\ List.length (typing (Image := Image) [] text) = 2 * List.length text
  /\ (forall i,
        i < List.length text ->
        nth_error (typing (Image := Image) [] text) (2 * i)
        = Some (Pages.Ui (Placeholder_markdown (firstn (S i) text ++ [cursor])))
        /\ nth_error (typing (Image := Image) [] text) (2 * i + 1)
           = Some (Pages.Ui Time_sleep)).
Proof.
  intros Hg. split; [|split].
  - rewrite get_text_response_streaming_run, Hg. reflexivity.
  - apply typing_length.
  - intros i Hi. exact (typing_nth text [] i Hi).
Qed.

Lemma typing_effect_shows_prefixes_witness :
  fst (Pages.get_text_response_streaming (lit "Hello")
         (Fixtures.blank_page one_session_one_reply))
  = Ok (lit "Hi there").
Proof.
  exact (f_equal fst
    (proj1 (typing_effect_shows_prefixes (G := Fixtures.generator)
       (Fixtures.blank_page one_session_one_reply) (lit "Hello") (lit "Hi there")
       (Scripted.mkScript [Returned 3] []) eq_refl))).
Defined.



Section PageTheorems.

Context {File Image PState : Type}
        {G : Generator Image PState} {U : Upload File Image}.

Implicit Types (p : Pages.page Image PState).

Lemma text_chat_run user_input clicked p :
  Pages.text_chat user_input clicked p
  = (Ok tt,
     if clicked
     then
       if truthy (strip user_input)
       then
         Pages.mkPage
           (snd (generate_content model_name (Text user_input) (Pages.service p)))
           (Pages.requests p ++ [(model_name, Text user_input)])
           (Pages.shown p
              ++ [Pages.Ui (St_header ([speech_balloon]
                                         ++ lit " Get Text Response for a single query"));
                  Pages.Ui (St_markdown (lit "Ask me anything and get an instant response!"));
                  Pages.Ui (St_success ([check_mark] ++ lit " Generating response..."));
                  Pages.Ui (St_markdown (lit "### " ++ [robot] ++ lit " AI Response:"))]
              ++ typed_reply
                   (fst (generate_content model_name (Text user_input) (Pages.service p))))
       else
         Pages.mkPage (Pages.service p) (Pages.requests p)
           (Pages.shown p
              ++ [Pages.Ui (St_header ([speech_balloon]
                                         ++ lit " Get Text Response for a single query"));
                  Pages.Ui (St_markdown (lit "Ask me anything and get an instant response!"));
                  Pages.Ui (St_warning (warning_sign ++ lit " Please enter a prompt first!"))])
     else
       Pages.mkPage (Pages.service p) (Pages.requests p)
         (Pages.shown p
            ++ [Pages.Ui (St_header ([speech_balloon]
                                       ++ lit " Get Text Response for a single query"));
                Pages.Ui (St_markdown (lit "Ask me anything and get an instant response!"))])).
Proof.
  destruct p as [s rq sh]. unfold Pages.text_chat. do 2 run_step.
  destruct clicked; [destruct (truthy (strip user_input))|].
  - do 3 run_step. rewrite get_text_response_streaming_run.
    cbn [Pages.service Pages.requests Pages.shown Run.ret].
    rewrite <- !app_assoc. cbn [app]. reflexivity.
  - unfold Pages.show, Run.modify. cbn [Pages.service Pages.requests Pages.shown].
    rewrite <- !app_assoc. cbn [app]. reflexivity.
  - unfold Run.ret. rewrite <- !app_assoc. cbn [app]. reflexivity.
Qed.

End PageTheorems.

(** X11.  The "Text Chat" page always ends normally, whatever the service
    does.  It makes a request exactly when "Generate Response" was clicked
    on a prompt that has a character that is not white space, and then one
    request only, whose contents are the prompt as typed; clicked on a
    blank prompt it shows the warning "Please enter a prompt first!" and
    leaves the service alone. *)
Theorem text_chat_page
    {Image PState : Type} {G : Generator Image PState}
    (p : Pages.page Image PState) (user_input : str) (clicked : bool) :
  fst (Pages.text_chat user_input clicked p) = Ok tt
  /\ Pages.requests (snd (Pages.text_chat user_input clicked p))
     = Pages.requests p
         ++ (if clicked && visible user_input then [(model_name, Text user_input)] else [])
  /\ (clicked && visible user_input = false ->
      Pages.service (snd (Pages.text_chat user_input clicked p)) = Pages.service p)
  /\ (clicked = true -> visible user_input = false ->
      last (Pages.shown (snd (Pages.text_chat user_input clicked p))) (Pages.Ui Time_sleep)
      = Pages.Ui (St_warning (warning_sign ++ lit " Please enter a prompt first!"))).
Proof.
  unfold visible. rewrite <- truthy_strip, text_chat_run. cbn [fst snd].
  destruct clicked; [destruct (truthy (strip user_input))|];
    cbn [andb Pages.requests Pages.service Pages.shown];
    rewrite ?app_nil_r; repeat split; try discriminate.
  intros _ _.
  match goal with
  | |- last (?l ++ [?a; ?b; ?c]) _ = _ =>
      change (l ++ [a; b; c]) with (l ++ [a; b] ++ [c]);
      rewrite !app_assoc; apply last_last
  end.
Qed.

Lemma text_chat_page_witness :
  last (Pages.shown (snd (Pages.text_chat spaces true
                            (Fixtures.blank_page one_session_one_reply))))
    (Pages.Ui Time_sleep)
  = Pages.Ui (St_warning (warning_sign ++ lit " Please enter a prompt first!")).
Proof.
  exact (proj2 (proj2 (proj2
    (text_chat_page (G := Fixtures.generator)
       (Fixtures.blank_page one_session_one_reply) spaces true)))
    eq_refl eq_refl).
Defined.

Section ImagePage.

Context {File Image PState : Type}
        {G : Generator Image PState} {U : Upload File Image}.

Implicit Types (p : Pages.page Image PState).

Lemma analyze_clicked_run image image_prompt p :
  Pages.analyze_clicked image image_prompt p
  = (Ok tt,
     if truthy (strip image_prompt)
     then
       Pages.mkPage
         (snd (generate_content Pages.vision_model (TextAndImage image_prompt image)
                 (Pages.service p)))
         (Pages.requests p ++ [(Pages.vision_model, TextAndImage image_prompt image)])
         (Pages.shown p
            ++ analysis_shown image_prompt
                 (fst (generate_content Pages.vision_model
                         (TextAndImage image_prompt image) (Pages.service p))))
     else
       Pages.mkPage (Pages.service p) (Pages.requests p)
         (Pages.shown p ++ analysis_shown image_prompt (Returned []))).
Proof.
  destruct p as [s rq sh]. unfold Pages.analyze_clicked, analysis_shown.
  destruct (truthy (strip image_prompt)).
  - run_step. unfold Run.bind at 1. rewrite analyze_image_run.
    cbn [Pages.service Pages.requests Pages.shown]. do 2 run_step.
    unfold Pages.show, Run.modify. cbn [Pages.service Pages.requests Pages.shown].
    rewrite <- !app_assoc. cbn [app]. reflexivity.
  - reflexivity.
Qed.

Lemma image_analysis_none image_prompt analyze p :
  Pages.image_analysis None image_prompt analyze p
  = (Ok tt,
     Pages.mkPage (Pages.service p) (Pages.requests p)
       (Pages.shown p ++ image_heading ++ image_footer)).
Proof.
  destruct p as [s rq sh]. unfold Pages.image_analysis. do 2 run_step.
  unfold Run.bind at 1, Run.ret. run_step.
  unfold Pages.show, Run.modify. cbn [Pages.service Pages.requests Pages.shown].
  unfold image_heading, image_footer. rewrite <- !app_assoc. cbn [app]. reflexivity.
Qed.

Lemma image_analysis_unreadable f e image_prompt analyze p :
  open_upload f = Raised e ->
  Pages.image_analysis (Some f) image_prompt analyze p
  = (Exc e,
     Pages.mkPage (Pages.service p) (Pages.requests p) (Pages.shown p ++ image_heading)).
Proof.
  intros Ho. destruct p as [s rq sh]. unfold Pages.image_analysis. do 2 run_step.
  unfold Run.bind at 1. unfold Run.bind at 1. unfold Pages.call_image_open.
  rewrite Ho. unfold Run.raise.
  unfold image_heading. rewrite <- !app_assoc. cbn [app]. reflexivity.
Qed.

Lemma image_analysis_opened f image image_prompt analyze p :
  open_upload f = Returned image ->
  Pages.image_analysis (Some f) image_prompt analyze p
  = (Ok tt,
     let o := fst (generate_content Pages.vision_model (TextAndImage image_prompt image)
                     (Pages.service p)) in
     if analyze
     then
       if truthy (strip image_prompt)
       then
         Pages.mkPage
           (snd (generate_content Pages.vision_model (TextAndImage image_prompt image)
                   (Pages.service p)))
           (Pages.requests p ++ [(Pages.vision_model, TextAndImage image_prompt image)])
           (Pages.shown p ++ image_heading
              ++ [Pages.St_image image (lit "Uploaded Image")]
              ++ analysis_shown image_prompt o ++ image_footer)
       else
         Pages.mkPage (Pages.service p) (Pages.requests p)
           (Pages.shown p ++ image_heading
              ++ [Pages.St_image image (lit "Uploaded Image")]
              ++ analysis_shown image_prompt o ++ image_footer)
     else
       Pages.mkPage (Pages.service p) (Pages.requests p)
         (Pages.shown p ++ image_heading
            ++ [Pages.St_image image (lit "Uploaded Image")] ++ image_footer)).
Proof.
  intros Ho. destruct p as [s rq sh]. unfold Pages.image_analysis. do 2 run_step.
  unfold Run.bind at 1. unfold Run.bind at 1. unfold Pages.call_image_open.
  rewrite Ho. unfold Run.ret at 1. run_step.
  destruct analyze.
  - rewrite analyze_clicked_run. cbn [Pages.service Pages.requests Pages.shown].
    unfold analysis_shown.
    destruct (truthy (strip image_prompt)); run_step;
      unfold Pages.show, Run.modify; cbn [Pages.service Pages.requests Pages.shown];
      unfold image_heading, image_footer; rewrite <- !app_assoc; cbn [app]; reflexivity.
  - unfold Run.ret. run_step.
    unfold Pages.show, Run.modify. cbn [Pages.service Pages.requests Pages.shown].
    unfold image_heading, image_footer. rewrite <- !app_assoc. cbn [app]. reflexivity.
Qed.

End ImagePage.

(** X12.  The "Image Analysis" page.  With no file uploaded it shows its
    heading and the footer and asks nothing of the service.  With a file
    that cannot be opened as an image the run ends with the exception of
    [Image.open], after the heading: no request, no footer.  With an image
    it ends normally and the footer is the last thing shown; it makes a
    request exactly when "Analyze Image" was clicked on a prompt that is
    not blank, and then announces "Analysis complete!" and shows the
    reply, or the text "Error: ..." when the request failed. *)
Theorem image_analysis_page
    {File Image PState : Type}
    {G : Generator Image PState} {U : Upload File Image}
    (p : Pages.page Image PState) (image_prompt : str) (analyze : bool) :
  Pages.image_analysis None image_prompt analyze p
  = (Ok tt,
     Pages.mkPage (Pages.service p) (Pages.requests p)
       (Pages.shown p ++ image_heading ++ image_footer))
  /\ (forall f e,
        open_upload f = Raised e ->
        Pages.image_analysis (Some f) image_prompt analyze p
        = (Exc e,
           Pages.mkPage (Pages.service p) (Pages.requests p)
             (Pages.shown p ++ image_heading)))
  /\ (forall f image,
        open_upload f = Returned image ->
        let o := fst (generate_content Pages.vision_model
                        (TextAndImage image_prompt image) (Pages.service p)) in
        let r := Pages.image_analysis (Some f) image_prompt analyze p in
        fst r = Ok tt
        /\ Pages.requests (snd r)
           = Pages.requests p
               ++ (if analyze && visible image_prompt
                   then [(Pages.vision_model, TextAndImage image_prompt image)]
                   else [])
        /\ Pages.shown (snd r)
           = Pages.shown p ++ image_heading
               ++ [Pages.St_image image (lit "Uploaded Image")]
               ++ (if analyze then analysis_shown image_prompt o else [])
               ++ image_footer
        /\ (analyze && visible image_prompt = true ->
            analysis_shown (Image := Image) image_prompt o
            = [Pages.St_spinner ([Pages.magnifier] ++ lit " Analyzing image...");
               Pages.Ui (St_success ([check_mark] ++ lit " Analysis complete!"));
               Pages.Ui (St_markdown (lit "### " ++ [robot] ++ lit " AI Analysis:"));
               Pages.Ui (St_markdown (reply_text o))])).
Proof.
  split; [apply image_analysis_none|].
  split; [intros f e Ho; now apply image_analysis_unreadable|].
  intros f image Ho o r. subst r.
  rewrite (image_analysis_opened f image image_prompt analyze p Ho).
  fold o. unfold visible. rewrite <- truthy_strip. cbn [fst snd].
  destruct analyze; cbn [andb].
  - unfold analysis_shown.
    destruct (truthy (strip image_prompt));
      cbn [Pages.requests Pages.shown]; rewrite ?app_nil_r;
      repeat split; discriminate.
  - cbn [Pages.requests Pages.shown app]. rewrite app_nil_r.
    repeat split. discriminate.
Qed.

Lemma image_analysis_page_witness :
  fst (Pages.image_analysis (U := Fixtures.upload) (Some (lit "notes.txt"))
         (lit "What is this?") true (Fixtures.blank_page one_session_one_reply))
  = Exc (lit "cannot identify image file")
  /\ fst (Pages.image_analysis (U := Fixtures.upload) (Some Fixtures.cat_png)
            (lit "What is this?") true (Fixtures.blank_page one_session_one_reply))
     = Ok tt.
Proof.
  pose proof (image_analysis_page (G := Fixtures.generator) (U := Fixtures.upload)
                (Fixtures.blank_page one_session_one_reply)
                (lit "What is this?") true) as (_ & Hbad & Hgood).
  split.
  - exact (f_equal fst (Hbad (lit "notes.txt") (lit "cannot identify image file") eq_refl)).
  - exact (proj1 (Hgood Fixtures.cat_png 1 eq_refl)).
Defined.

(** * The API key *)

(** X13.  [setup_client] of the Streamlit script never gives a client made
    with an empty key.  The client it gives holds the secret, or, when the
    secrets have no such key or there is no secrets file, the value found
    in the environment.  It stops the script, with the error shown, exactly
    when the secret is the empty text or, the secret being absent, the
    environment gives nothing; another failure of the secrets is not
    caught.  A secret that is there, even empty, decides alone: the
    environment is not consulted. *)
Theorem setup_client_key (e : Setup.environment) :
  match Setup.setup_client e with
  | (Ok c, shown) =>
      Setup.api_key c <> [] /\ shown = []
      /\ (Setup.st_secrets e = Setup.Secret (Setup.api_key c)
          \/ ((Setup.st_secrets e = Setup.KeyError
               \/ Setup.st_secrets e = Setup.FileNotFoundError)
              /\ Setup.getenv_after_load_dotenv e = Some (Setup.api_key c)))
  | (StopScript, shown) =>
      shown
      = [St_error
           (warning_sign
              ++ lit " GOOGLE_API_KEY not found. Please add it to Streamlit secrets or .env file.")]
      /\ (Setup.st_secrets e = Setup.Secret []
          \/ ((Setup.st_secrets e = Setup.KeyError
               \/ Setup.st_secrets e = Setup.FileNotFoundError)
              /\ Setup.missing (Setup.getenv_after_load_dotenv e) = true))
  | (Exc msg, shown) => Setup.st_secrets e = Setup.OtherError msg /\ shown = []
  | (RerunScript, _) => False
  end
  /\ (forall v e', Setup.st_secrets e = Setup.Secret v ->
        Setup.st_secrets e' = Setup.Secret v ->
        Setup.setup_client e' = Setup.setup_client e).
Proof.
  split.
  - unfold Setup.setup_client.
    destruct (Setup.st_secrets e) as [v| | |msg] eqn:Hs.
    + destruct v as [|c v]; cbn; [auto|].
      repeat split; [discriminate | now left].
    + destruct (Setup.getenv_after_load_dotenv e) as [[|c k]|] eqn:Hk; cbn;
        try (split; [reflexivity | right; split; [now left | reflexivity]]).
      repeat split; [discriminate|]. right. split; [now left | reflexivity].
    + destruct (Setup.getenv_after_load_dotenv e) as [[|c k]|] eqn:Hk; cbn;
        try (split; [reflexivity | right; split; [now right | reflexivity]]).
      repeat split; [discriminate|]. right. split; [now right | reflexivity].
    + cbn. auto.
  - intros v e' H1 H2. unfold Setup.setup_client. now rewrite H1, H2.
Qed.

Lemma setup_client_key_witness :
  Setup.setup_client (Setup.mkEnvironment (Setup.Secret []) None None)
  = Setup.setup_client empty_secret
  /\ fst (Setup.setup_client empty_secret) = StopScript.
Proof.
  split; [|reflexivity].
  exact (proj2 (setup_client_key empty_secret) []
           (Setup.mkEnvironment (Setup.Secret []) None None) eq_refl eq_refl).
Defined.

(** * The menu of the console application *)

Section MenuRuns.

Context {Handle Image PState : Type}
        {P : Provider Handle PState} {G : Generator Image PState}
        {D : Disk Image}.

Implicit Types (t : Menu.terminal Handle Image PState).

Lemma reads_ret {A : Type} (a : A) :
  reads_forward (Run.ret (W := Menu.terminal Handle Image PState) a).
Proof. intros t. now exists []. Qed.

Lemma reads_bind {A B : Type}
    (m : Run.M (Menu.terminal Handle Image PState) A)
    (k : A -> Run.M (Menu.terminal Handle Image PState) B) :
  reads_forward m -> (forall a, reads_forward (k a)) -> reads_forward (Run.bind m k).
Proof.
  intros Hm Hk t. unfold Run.bind.
  destruct (Hm t) as [c1 H1]. destruct (m t) as [[a|e| |] t1]; cbn [snd] in *;
    try (now exists c1).
  destruct (Hk a t1) as [c2 H2]. exists (c1 ++ c2). now rewrite <- app_assoc, <- H2.
Qed.

Lemma reads_print s : reads_forward (Menu.print (Handle := Handle) (Image := Image)
                                       (PState := PState) s).
Proof. intros t. now exists []. Qed.

Lemma reads_input prompt :
  reads_forward (Menu.input (Handle := Handle) (Image := Image) (PState := PState) prompt).
Proof.
  intros t. unfold Menu.input. destruct (Menu.stdin t) as [|line rest] eqn:Hs; cbn.
  - exists []. cbn. now rewrite ?Hs.
  - now exists [line].
Qed.

Lemma reads_generate model c : reads_forward (Menu.call_generate_content (Handle := Handle) model c).
Proof.
  intros t. unfold Menu.call_generate_content.
  destruct (generate_content model c (Menu.service t)) as [[text|e] s]; now exists [].
Qed.

Lemma reads_image_open path : reads_forward (Menu.call_image_open (Handle := Handle) (PState := PState) path).
Proof.
  intros t. unfold Menu.call_image_open. destruct (open_path path); now exists [].
Qed.

Lemma reads_get_text_response :
  reads_forward (Menu.get_text_response (Handle := Handle)).
Proof.
  unfold Menu.get_text_response.
  repeat (apply reads_bind; [|intros ?]);
    auto using reads_print, reads_input, reads_generate.
Qed.

Lemma reads_generate_image :
  reads_forward (Menu.generate_image (Handle := Handle)).
Proof.
  unfold Menu.generate_image.
  apply reads_bind; [apply reads_print|intros _].
  apply reads_bind; [apply reads_input|intros path].
  destruct (negb (path_exists path)); [apply reads_print|].
  repeat (apply reads_bind; [|intros ?]);
    auto using reads_print, reads_input, reads_generate, reads_image_open.
Qed.

Lemma reads_start_chat_conversation :
  reads_forward (Menu.start_chat_conversation (Image := Image)).
Proof.
  intros t. unfold Menu.start_chat_conversation.
  unfold Cli.start_chat_conversation.
  cbn [Cli.print Cli.provider Cli.calls Cli.stdout].
  destruct (chats_create model_name (Menu.service t)) as [[chat|e] ps].
  - match goal with
    | |- context [Cli.conversation_loop chat (Menu.stdin t) ?c0] =>
        destruct (conversation_loop_sent chat (Menu.stdin t) c0) as (sent & _ & _ & Hend);
        destruct (Cli.conversation_loop chat (Menu.stdin t) c0) as [[o rest] c4]
    end.
    cbn [fst snd] in Hend.
    destruct Hend as [(cmd & _ & Hin & ->) | (Hin & e & ->)]; cbn [snd Menu.stdin].
    + exists (sent ++ [cmd]). now rewrite <- app_assoc.
    + now exists sent.
  - now exists [].
Qed.

Lemma reads_display_menu :
  reads_forward (Menu.display_menu (Handle := Handle) (Image := Image) (PState := PState)).
Proof.
  unfold Menu.display_menu.
  repeat (apply reads_bind; [apply reads_print|intros _]). apply reads_print.
Qed.

Lemma reads_dispatch choice : reads_forward (Menu.dispatch choice).
Proof.
  unfold Menu.dispatch.
  repeat match goal with
         | |- reads_forward (if ?b then _ else _) => destruct b
         end;
    (apply reads_bind; [|intros _; apply reads_ret]);
    auto using reads_get_text_response, reads_start_chat_conversation,
      reads_generate_image, reads_print.
Qed.

Lemma display_menu_stdin t :
  fst (Menu.display_menu t) = Ok tt
  /\ Menu.stdin (snd (Menu.display_menu t)) = Menu.stdin t
  /\ Menu.contacts (snd (Menu.display_menu t)) = Menu.contacts t
  /\ Menu.service (snd (Menu.display_menu t)) = Menu.service t.
Proof. destruct t. repeat split. Qed.

End MenuRuns.

Section MenuLoop.

Context {Handle Image PState : Type}
        {P : Provider Handle PState} {G : Generator Image PState}
        {D : Disk Image}.

Implicit Types (t : Menu.terminal Handle Image PState).

Lemma menu_loop_round fuel :
  Menu.menu_loop (S fuel) = round (Menu.menu_loop fuel).
Proof. reflexivity. Qed.

Lemma str_eqb_eq (a b : str) : str_eqb a b = true -> a = b.
Proof. unfold str_eqb. now destruct (list_eq_dec N.eq_dec a b). Qed.

(** The loop is left only by choice 4, with the farewell printed last. *)
Lemma dispatch_leaves choice t :
  fst (Menu.dispatch choice t) = Ok false ->
  choice = lit "4"
  /\ snd (Menu.dispatch choice t)
     = Menu.mkTerminal (Menu.service t) (Menu.contacts t)
         (Menu.screen t ++ [goodbye]) (Menu.stdin t).
Proof.
  unfold Menu.dispatch.
  destruct (str_eqb choice (lit "1")).
  { unfold Run.bind. destruct (Menu.get_text_response t) as [[[]|e| |] t1]; discriminate. }
  destruct (str_eqb choice (lit "2")).
  { unfold Run.bind. destruct (Menu.start_chat_conversation t) as [[[]|e| |] t1]; discriminate. }
  destruct (str_eqb choice (lit "3")).
  { unfold Run.bind. destruct (Menu.generate_image t) as [[[]|e| |] t1]; discriminate. }
  destruct (str_eqb choice (lit "4")) eqn:H4.
  - intros _. split; [now apply str_eqb_eq | reflexivity].
  - discriminate.
Qed.

(** A round ends the loop, in a way that does not depend on what would
    come next, or it goes on to the next round with at least two lines
    fewer to read. *)
Lemma round_cases t :
  (exists r t',
      (forall next, round next t = (r, t'))
      /\ r <> Ok Menu.OutOfFuel
      /\ (r = Ok Menu.Finished -> last (Menu.screen t') (Cli.Prompt []) = goodbye))
  \/ (exists t',
        (forall next, round next t = next t')
        /\ List.length (Menu.stdin t') + 2 <= List.length (Menu.stdin t)).
Proof.
  unfold round, Run.bind, Menu.input, Run.ret.
  destruct (display_menu_stdin t) as (Hd & Hs1 & _).
  destruct (Menu.display_menu t) as [r1 t1]. cbn [fst snd] in Hd, Hs1. subst r1.
  destruct (Menu.stdin t1) as [|choice rest] eqn:Hin.
  { left. do 2 eexists. split; [reflexivity|]. split; discriminate. }
  cbn [Menu.service Menu.contacts Menu.screen].
  set (t2 := Menu.mkTerminal _ _ _ rest).
  destruct (reads_dispatch choice t2) as [c2 Hc2].
  pose proof (dispatch_leaves choice t2) as Hleave.
  destruct (Menu.dispatch choice t2) as [[[|]|e| |] t3]; cbn [fst snd] in *.
  - destruct (Menu.stdin t3) as [|line rest3] eqn:Hin3.
    + left. do 2 eexists. split; [reflexivity|]. split; discriminate.
    + right. eexists. split; [reflexivity|]. cbn [Menu.stdin].
      assert (Hle : List.length (line :: rest3) <= List.length rest).
      { change rest with (Menu.stdin t2). rewrite Hc2, length_app. lia. }
      cbn [List.length] in Hle.
      rewrite <- Hs1. cbn [List.length]. lia.
  - left. do 2 eexists. split; [reflexivity|]. split; [discriminate|].
    intros _. destruct (Hleave eq_refl) as [_ ->]. cbn [Menu.screen]. apply last_last.
  - left. do 2 eexists. split; [reflexivity|]. split; discriminate.
  - left. do 2 eexists. split; [reflexivity|]. split; discriminate.
  - left. do 2 eexists. split; [reflexivity|]. split; discriminate.
Qed.

Lemma menu_loop_fuel fuel : forall t,
  List.length (Menu.stdin t) < fuel ->
  fst (Menu.menu_loop fuel t) <> Ok Menu.OutOfFuel
  /\ Menu.menu_loop (S fuel) t = Menu.menu_loop fuel t
  /\ (fst (Menu.menu_loop fuel t) = Ok Menu.Finished ->
      last (Menu.screen (snd (Menu.menu_loop fuel t))) (Cli.Prompt []) = goodbye).
Proof.
  induction fuel as [|fuel IH]; intros t Hlen; [lia|].
  rewrite !menu_loop_round.
  destruct (round_cases t) as [(r & t' & Hr & Hne & Hfin) | (t' & Hr & Hl)].
  - rewrite !Hr. cbn [fst snd]. auto.
  - rewrite !Hr. rewrite <- menu_loop_round. apply IH. lia.
Qed.

End MenuLoop.

Section MenuTheorems.

Context {Handle Image PState : Type}
        {P : Provider Handle PState} {G : Generator Image PState}
        {D : Disk Image}.

Implicit Types (t : Menu.terminal Handle Image PState).

Lemma reads_menu_loop fuel : reads_forward (Menu.menu_loop fuel).
Proof.
  induction fuel as [|fuel IH]; [apply reads_ret|].
  cbn [Menu.menu_loop].
  apply reads_bind; [apply reads_display_menu|intros _].
  apply reads_bind; [apply reads_input|intros choice].
  apply reads_bind; [apply reads_dispatch|intros [|]]; [|apply reads_ret].
  apply reads_bind; [apply reads_input|intros _]. exact IH.
Qed.

Lemma menu_loop_enough extra : forall t,
  Menu.menu_loop (extra + S (List.length (Menu.stdin t))) t
  = Menu.menu_loop (S (List.length (Menu.stdin t))) t.
Proof.
  induction extra as [|extra IH]; intros t; [reflexivity|].
  cbn [Nat.add].
  destruct (menu_loop_fuel (extra + S (List.length (Menu.stdin t))) t ltac:(lia))
    as (_ & -> & _).
  apply IH.
Qed.

End MenuTheorems.

(** X14.  The console [main] always comes to an end on a finite input:
    every round of the menu reads at least one line, so the loop never
    needs more rounds than there are lines plus one, and any larger bound
    gives the same run.  It reads its input from the front: the lines left
    at the end are a suffix of the input. *)
Theorem console_main_terminates
    {Handle Image PState : Type}
    {P : Provider Handle PState} {G : Generator Image PState} {D : Disk Image}
    (e : Setup.environment) (t : Menu.terminal Handle Image PState) :
  fst (Menu.main e t) <> Ok Menu.OutOfFuel
  /\ (forall fuel t0,
        List.length (Menu.stdin t0) < fuel ->
        Menu.menu_loop fuel t0 = Menu.menu_loop (S (List.length (Menu.stdin t0))) t0
        /\ fst (Menu.menu_loop fuel t0) <> Ok Menu.OutOfFuel)
  /\ exists consumed, Menu.stdin t = consumed ++ Menu.stdin (snd (Menu.main e t)).
Proof.
  split; [|split].
  - unfold Menu.main. destruct (Setup.setup_client_console e) as [[c|] printed].
    + apply menu_loop_fuel. cbn [Menu.stdin]. lia.
    + discriminate.
  - intros fuel t0 Hlen. split; [|now apply menu_loop_fuel].
    replace fuel with ((fuel - S (List.length (Menu.stdin t0)))
                       + S (List.length (Menu.stdin t0))) by lia.
    apply menu_loop_enough.
  - unfold Menu.main. destruct (Setup.setup_client_console e) as [[c|] printed].
    + match goal with
      | |- context [Menu.menu_loop ?f ?t0] =>
          destruct (reads_menu_loop f t0) as [consumed Hc]
      end.
      exists consumed. exact Hc.
    + now exists [].
Qed.

(** X15.  The console [main] ends normally in two ways only.  Without an
    API key in the environment it prints the error and returns at once: no
    line is read and the service is not contacted.  With a key it ends
    when "4" is chosen, and the last line printed is the farewell. *)
Theorem console_main_ends
    {Handle Image PState : Type}
    {P : Provider Handle PState} {G : Generator Image PState} {D : Disk Image}
    (e : Setup.environment) (t : Menu.terminal Handle Image PState) :
  fst (Menu.main e t) = Ok Menu.Finished ->
  (Setup.missing (Setup.getenv_after_load_dotenv e) = true
   /\ snd (Menu.main e t)
      = Menu.mkTerminal (Menu.service t) (Menu.contacts t)
          (Menu.screen t
             ++ [Cli.Print (lit "Error: GOOGLE_API_KEY not found in .env file.")])
          (Menu.stdin t))
  \/ (Setup.missing (Setup.getenv_after_load_dotenv e) = false
      /\ last (Menu.screen (snd (Menu.main e t))) (Cli.Prompt []) = goodbye).
Proof.
  unfold Menu.main, Setup.setup_client_console.
  destruct (Setup.missing (Setup.getenv_after_load_dotenv e)).
  - intros _. left. split; reflexivity.
  - intros Hfin. right. split; [reflexivity|].
    match goal with
    | |- context [Menu.menu_loop ?f ?t0] =>
        destruct (menu_loop_fuel f t0) as (_ & _ & Hlast);
        [cbn [Menu.stdin]; lia | exact (Hlast Hfin)]
    end.
Qed.

Lemma console_main_ends_witness :
  last (Menu.screen (snd (Menu.main Fixtures.with_key choose_exit))) (Cli.Prompt [])
  = goodbye
  /\ Menu.stdin (snd (Menu.main Fixtures.without_key choose_exit))
     = Menu.stdin choose_exit.
Proof.
  split.
  - destruct (console_main_ends (P := Scripted.service) (G := Fixtures.generator)
                (D := Fixtures.disk) Fixtures.with_key choose_exit eq_refl)
      as [[H _] | [_ H]]; [discriminate H | exact H].
  - destruct (console_main_ends (P := Scripted.service) (G := Fixtures.generator)
                (D := Fixtures.disk) Fixtures.without_key choose_exit eq_refl)
      as [[_ H] | [H _]]; [now rewrite H | discriminate H].
Defined.

Lemma console_main_terminates_witness :
  Menu.menu_loop (P := Scripted.service) (G := Fixtures.generator) (D := Fixtures.disk)
    10 choose_exit
  = Menu.menu_loop (S (List.length (Menu.stdin choose_exit))) choose_exit.
Proof.
  refine (proj1 (proj1 (proj2
    (console_main_terminates (P := Scripted.service) (G := Fixtures.generator)
       (D := Fixtures.disk) Fixtures.with_key choose_exit)) 10 choose_exit _)).
  cbn. lia.
Defined.

Section MenuFailures.

Context {Handle Image PState : Type}
        {P : Provider Handle PState} {G : Generator Image PState}
        {D : Disk Image}.

Implicit Types (t : Menu.terminal Handle Image PState).

Lemma display_menu_run t :
  Menu.display_menu t
  = (Ok tt,
     Menu.mkTerminal (Menu.service t) (Menu.contacts t)
       (Menu.screen t ++ menu_lines) (Menu.stdin t)).
Proof.
  destruct t as [s cs sc inp]. unfold Menu.display_menu. do 7 menu_step.
  unfold Menu.print, Run.modify. cbn [Menu.service Menu.contacts Menu.screen Menu.stdin].
  unfold menu_lines. rewrite <- !app_assoc. cbn [app]. reflexivity.
Qed.

Lemma get_text_response_run t user_input rest :
  Menu.stdin t = user_input :: rest ->
  Menu.get_text_response t
  = let o := fst (generate_content model_name (Text user_input) (Menu.service t)) in
    let t' :=
      Menu.mkTerminal
        (snd (generate_content model_name (Text user_input) (Menu.service t)))
        (Menu.contacts t ++ [Menu.Content model_name (Text user_input)])
        (Menu.screen t
           ++ [Cli.Print ([10%N] ++ lit ">>> You've chosen: Get Text Response");
               Cli.Prompt (lit "Enter your prompt: ")]
           ++ match o with
              | Returned text => [Cli.Print (lit "Response: " ++ text)]
              | Raised _ => []
              end)
        rest in
    match o with
    | Returned _ => (Ok tt, t')
    | Raised e => (Exc e, t')
    end.
Proof.
  destruct t as [s cs sc inp]. cbn [Menu.stdin Menu.service Menu.contacts Menu.screen].
  intros ->. unfold Menu.get_text_response. menu_step.
  unfold Run.bind at 1. unfold Menu.input at 1.
  cbn [Menu.service Menu.contacts Menu.screen Menu.stdin].
  unfold Run.bind at 1. unfold Menu.call_generate_content.
  cbn [Menu.service Menu.contacts Menu.screen Menu.stdin].
  destruct (generate_content model_name (Text user_input) s) as [[text|e] s'];
    cbn [fst snd].
  - unfold Menu.print, Run.modify.
    cbn [Menu.service Menu.contacts Menu.screen Menu.stdin].
    rewrite <- !app_assoc. cbn [app]. reflexivity.
  - rewrite app_nil_r, <- !app_assoc. cbn [app]. reflexivity.
Qed.

End MenuFailures.

(** X16.  A failure of the service is fatal to the console program in
    option 1 and not in option 2.  When "1" is chosen and the request for
    the prompt raises an exception, the menu loop ends with that exception:
    nothing is printed after the prompt and the lines that follow are left
    unread.  When "2" is chosen the loop always goes on to "Press Enter",
    whatever the service does during the conversation. *)
Theorem text_response_failure_ends_program
    {Handle Image PState : Type}
    {P : Provider Handle PState} {G : Generator Image PState} {D : Disk Image}
    (t : Menu.terminal Handle Image PState) :
  (forall user_input rest e s fuel,
      Menu.stdin t = lit "1" :: user_input :: rest ->
      generate_content model_name (Text user_input) (Menu.service t) = (Raised e, s) ->
      Menu.menu_loop (S fuel) t
      = (Exc e,
         Menu.mkTerminal s
           (Menu.contacts t ++ [Menu.Content model_name (Text user_input)])
           (Menu.screen t ++ menu_lines
              ++ [Cli.Prompt (lit "Enter your choice (1-4): ");
                  Cli.Print ([10%N] ++ lit ">>> You've chosen: Get Text Response");
                  Cli.Prompt (lit "Enter your prompt: ")])
           rest))
  /\ fst (Menu.dispatch (lit "2") t) = Ok true.
Proof.
  split.
  - intros user_input rest e s fuel Hin Hg.
    cbn [Menu.menu_loop]. unfold Run.bind at 1. rewrite display_menu_run.
    unfold Run.bind at 1. unfold Menu.input at 1.
    cbn [Menu.service Menu.contacts Menu.screen Menu.stdin]. rewrite Hin.
    unfold Run.bind at 1.
    change (Menu.dispatch (lit "1")) with
      (Run.bind (Menu.get_text_response (Handle := Handle) (Image := Image)
                   (PState := PState))
         (fun _ => Run.ret true)).
    unfold Run.bind at 1.
    rewrite (get_text_response_run _ user_input rest) by reflexivity.
    cbn [Menu.service Menu.contacts Menu.screen Menu.stdin]. rewrite Hg.
    cbn [fst snd]. rewrite app_nil_r, <- !app_assoc. cbn [app]. reflexivity.
  - change (Menu.dispatch (lit "2")) with
      (Run.bind (Menu.start_chat_conversation (Handle := Handle) (Image := Image)
                   (PState := PState))
         (fun _ => Run.ret true)).
    unfold Run.bind, Menu.start_chat_conversation.
    now destruct (Cli.start_chat_conversation (Menu.stdin t)
                    (Cli.mkConsole (Menu.service t) [] (Menu.screen t))).
Qed.

Lemma text_response_failure_ends_program_witness :
  fst (Menu.menu_loop 5 ask_and_fail) = Exc (lit "quota exceeded")
  /\ Menu.stdin (snd (Menu.menu_loop 5 ask_and_fail)) = [lit ""; lit "4"].
Proof.
  pose proof (proj1 (text_response_failure_ends_program (P := Scripted.service)
                       (G := Fixtures.generator) (D := Fixtures.disk) ask_and_fail)
                (lit "Hello") [lit ""; lit "4"] (lit "quota exceeded")
                (Scripted.mkScript [] []) 4 eq_refl eq_refl) as H.
  split; [exact (f_equal fst H) | exact (f_equal (fun r => Menu.stdin (snd r)) H)].
Defined.

(** X17.  [generate_image] of the console script.  For a path that does
    not exist it prints an error naming the path and returns: one line is
    read, no prompt is asked and the service is not contacted.  For a path
    that exists the prompt is read first and the file opened after: if it
    cannot be opened as an image the function ends with that exception,
    the prompt already read and no request made; if it can, one request is
    made with the prompt and the image, and the reply is printed or the
    exception of the request let out. *)
Theorem generate_image_cases
    {Handle Image PState : Type}
    {G : Generator Image PState} {D : Disk Image}
    (t : Menu.terminal Handle Image PState) (image_path : str) :
  (forall rest,
      Menu.stdin t = image_path :: rest ->
      path_exists image_path = false ->
      Menu.generate_image t
      = (Ok tt,
         Menu.mkTerminal (Menu.service t) (Menu.contacts t)
           (Menu.screen t
              ++ [Cli.Print ([10%N] ++ lit ">>> You've chosen: Generate an Image");
                  Cli.Prompt (lit "Enter the path to the image file: ");
                  Cli.Print (lit "Error: Image file '" ++ image_path ++ lit "' not found.")])
           rest))
  /\ (forall user_prompt rest e,
        Menu.stdin t = image_path :: user_prompt :: rest ->
        path_exists image_path = true ->
        open_path image_path = Raised e ->
        Menu.generate_image t
        = (Exc e,
           Menu.mkTerminal (Menu.service t) (Menu.contacts t)
             (Menu.screen t
                ++ [Cli.Print ([10%N] ++ lit ">>> You've chosen: Generate an Image");
                    Cli.Prompt (lit "Enter the path to the image file: ");
                    Cli.Prompt (lit "Enter your prompt for the image: ")])
             rest))
  /\ (forall user_prompt rest image,
        Menu.stdin t = image_path :: user_prompt :: rest ->
        path_exists image_path = true ->
        open_path image_path = Returned image ->
        let request := TextAndImage user_prompt image in
        let r := Menu.generate_image t in
        Menu.contacts (snd r)
        = Menu.contacts t ++ [Menu.Content (lit "gemini-2.0-flash") request]
        /\ Menu.stdin (snd r) = rest
        /\ match fst (generate_content (lit "gemini-2.0-flash") request (Menu.service t)) with
           | Returned text =>
               fst r = Ok tt
               /\ last (Menu.screen (snd r)) (Cli.Prompt []) = Cli.Print text
           | Raised e =>
               fst r = Exc e
               /\ last (Menu.screen (snd r)) (Cli.Prompt [])
                  = Cli.Prompt (lit "Enter your prompt for the image: ")
           end).
Proof.
  destruct t as [s cs sc inp]. cbn [Menu.stdin Menu.service Menu.contacts Menu.screen].
  split; [|split].
  - intros rest -> Hex. unfold Menu.generate_image. menu_step.
    unfold Run.bind at 1. unfold Menu.input at 1.
    cbn [Menu.service Menu.contacts Menu.screen Menu.stdin]. rewrite Hex. cbn [negb].
    unfold Menu.print, Run.modify.
    cbn [Menu.service Menu.contacts Menu.screen Menu.stdin].
    rewrite <- !app_assoc. cbn [app]. reflexivity.
  - intros user_prompt rest e -> Hex Hopen. unfold Menu.generate_image. menu_step.
    unfold Run.bind at 1. unfold Menu.input at 1.
    cbn [Menu.service Menu.contacts Menu.screen Menu.stdin]. rewrite Hex. cbn [negb].
    unfold Run.bind at 1. unfold Menu.input at 1.
    cbn [Menu.service Menu.contacts Menu.screen Menu.stdin].
    unfold Run.bind at 1. unfold Menu.call_image_open. rewrite Hopen.
    unfold Run.raise. rewrite <- !app_assoc. cbn [app]. reflexivity.
  - intros user_prompt rest image -> Hex Hopen. cbn zeta.
    assert (E : Menu.generate_image
                  (Menu.mkTerminal s cs sc (image_path :: user_prompt :: rest))
                = let shown :=
                    sc ++ [Cli.Print ([10%N] ++ lit ">>> You've chosen: Generate an Image");
                           Cli.Prompt (lit "Enter the path to the image file: ");
                           Cli.Prompt (lit "Enter your prompt for the image: ")] in
                  let sent :=
                    cs ++ [Menu.Content (lit "gemini-2.0-flash")
                             (TextAndImage user_prompt image)] in
                  match generate_content (lit "gemini-2.0-flash")
                          (TextAndImage user_prompt image) s with
                  | (Returned text, s') =>
                      (Ok tt, Menu.mkTerminal s' sent (shown ++ [Cli.Print text]) rest)
                  | (Raised e, s') => (Exc e, Menu.mkTerminal s' sent shown rest)
                  end).
    { unfold Menu.generate_image. menu_step.
      unfold Run.bind at 1. unfold Menu.input at 1.
      cbn [Menu.service Menu.contacts Menu.screen Menu.stdin]. rewrite Hex. cbn [negb].
      unfold Run.bind at 1. unfold Menu.input at 1.
      cbn [Menu.service Menu.contacts Menu.screen Menu.stdin].
      unfold Run.bind at 1. unfold Menu.call_image_open. rewrite Hopen.
      unfold Run.ret at 1.
      unfold Run.bind at 1. unfold Menu.call_generate_content.
      cbn [Menu.service Menu.contacts Menu.screen Menu.stdin].
      destruct (generate_content (lit "gemini-2.0-flash")
                  (TextAndImage user_prompt image) s) as [[text|e] s'].
      - unfold Menu.print, Run.modify.
        cbn [Menu.service Menu.contacts Menu.screen Menu.stdin].
        rewrite <- !app_assoc. cbn [app]. reflexivity.
      - cbn zeta. rewrite <- !app_assoc. cbn [app]. reflexivity. }
    rewrite E. cbn zeta.
    destruct (generate_content (lit "gemini-2.0-flash")
                (TextAndImage user_prompt image) s) as [[text|e] s'];
      cbn [fst snd Menu.contacts Menu.stdin Menu.screen].
    + repeat split. apply last_last.
    + repeat split.
      change (sc ++ [Cli.Print ([10%N] ++ lit ">>> You've chosen: Generate an Image");
                     Cli.Prompt (lit "Enter the path to the image file: ");
                     Cli.Prompt (lit "Enter your prompt for the image: ")])
        with (sc ++ [Cli.Print ([10%N] ++ lit ">>> You've chosen: Generate an Image");
                     Cli.Prompt (lit "Enter the path to the image file: ")]
                ++ [Cli.Prompt (lit "Enter your prompt for the image: ")]).
      rewrite app_assoc. apply last_last.
Qed.

Lemma generate_image_cases_witness :
  Menu.stdin (snd (Menu.generate_image (G := Fixtures.generator)
                     (D := Fixtures.disk) ask_about_missing_file))
  = [lit ""; lit "4"]
  /\ Menu.contacts (snd (Menu.generate_image (G := Fixtures.generator) (D := Fixtures.disk) ask_about_cat))
     = [] ++ [Menu.Content (lit "gemini-2.0-flash") (TextAndImage (lit "What is this?") 1)].
Proof.
  split.
  - exact (f_equal (fun r => Menu.stdin (snd r))
      (proj1 (generate_image_cases (G := Fixtures.generator)
                (D := Fixtures.disk) ask_about_missing_file (lit "dog.png"))
         [lit ""; lit "4"] eq_refl eq_refl)).
  - exact (proj1
      (proj2 (proj2 (generate_image_cases (G := Fixtures.generator)
                       (D := Fixtures.disk) ask_about_cat Fixtures.cat_png))
         (lit "What is this?") [lit ""] 1 eq_refl eq_refl eq_refl)).
Defined.
